(** * Bitcoin price detector: the polling loop and its signal logic

    A shallow embedding of [server.py]: the bounded price history
    ([collections.deque] with [maxlen]), the price fetch with its
    [try]/[except], the moving-average crossover with the remembered
    last signal, the anomaly gate, and the body of the polling loop.

    Python floats are IEEE binary64 numbers and are modelled by Rocq's
    primitive floats.  The module-level variables [prices], [timestamps]
    and [last_signal] are threaded explicitly.  Exceptions are values of
    [outcome].  What the program takes from pandas, scikit-learn and the
    [float] builtin on strings is a variable of the section that needs it;
    the scikit-learn call may raise. *)

From Stdlib Require Import ZArith List String Ascii Bool Lia Floats.
Import ListNotations.

Local Open Scope string_scope.
Local Open Scope list_scope.
Local Open Scope nat_scope.

(** ** Exceptions *)

Inductive exn : Type :=
| RequestException
| HTTPError
| JSONDecodeError
| KeyError
| TypeError
| ValueError
| OverflowError
| IndexError
| AttributeError.

Inductive outcome (A : Type) : Type :=
| Ok (a : A)
| Raise (e : exn).

Arguments Ok {A} a.
Arguments Raise {A} e.

Definition bind {A B : Type} (c : outcome A) (k : A -> outcome B) : outcome B :=
  match c with
  | Ok a => k a
  | Raise e => Raise e
  end.

Notation "x <- c ;; k" := (bind c (fun x => k))
  (at level 61, c at next level, right associativity).

(** [try: c  except Exception: h]: every member of [exn] is a subclass of
    [Exception], so the handler takes them all. *)
Definition try_except {A : Type} (c : outcome A) (h : exn -> A) : A :=
  match c with
  | Ok a => a
  | Raise e => h e
  end.

(** ** Configuration *)

Definition PRICE_WINDOW : nat := 200.

(** ** Slices and arrays *)

Section Slices.
Context {A : Type}.

(** [l[-n:]] for [n > 0]. *)
Definition lastn (n : nat) (l : list A) : list A :=
  skipn (List.length l - n) l.

(** [l[:-1]] is [removelast l]; [l[-1]] raises on the empty list. *)
Definition last_item (l : list A) : outcome A :=
  match rev l with
  | x :: _ => Ok x
  | [] => Raise IndexError
  end.

(** [l[0]]. *)
Definition first_item (l : list A) : outcome A :=
  match l with
  | x :: _ => Ok x
  | [] => Raise IndexError
  end.
End Slices.

(** ** [collections.deque(maxlen=N)]

    [append] puts the item at the right end and, when the length has
    grown past [maxlen], drops one item from the left end. *)

Module Deque.
Section Bounded.
Context {A : Type}.

Definition append (maxlen : nat) (d : list A) (x : A) : list A :=
  let d' := d ++ [x] in
  if maxlen <? List.length d' then tl d' else d'.

Definition append_all (maxlen : nat) (d : list A) (xs : list A) : list A :=
  fold_left (append maxlen) xs d.
End Bounded.
End Deque.

(** ** The decoded body of a response and the request's outcome *)

#[local] Unset Elimination Schemes.
Inductive json : Type :=
| JNull
| JBool (b : bool)
| JInt (z : Z)
| JFloat (f : float)
| JStr (s : string)
| JArr (items : list json)
| JObj (members : list (string * json)).
#[local] Set Elimination Schemes.

(** [body] is what [r.json()] gives: [None] when decoding raises. *)
Record response : Type := {
  status_code : Z;
  body : option json
}.

Inductive http_outcome : Type :=
| Failed       (* [requests.get] raised: connection error, timeout, ... *)
| Responded (r : response).

Definition requests_get (o : http_outcome) : outcome response :=
  match o with
  | Failed => Raise RequestException
  | Responded r => Ok r
  end.

Definition raise_for_status (r : response) : outcome unit :=
  if ((400 <=? status_code r)%Z && (status_code r <? 600)%Z)%bool
  then Raise HTTPError
  else Ok tt.

Definition response_json (r : response) : outcome json :=
  match body r with
  | Some j => Ok j
  | None => Raise JSONDecodeError
  end.

(** A decoded object keeps the last of several members with one name. *)
Fixpoint dict_get (key : string) (members : list (string * json)) : option json :=
  match members with
  | [] => None
  | (k, v) :: rest =>
      match dict_get key rest with
      | Some w => Some w
      | None => if String.eqb k key then Some v else None
      end
  end.

(** [data[key]] for a string [key]. *)
Definition getitem (data : json) (key : string) : outcome json :=
  match data with
  | JObj members =>
      match dict_get key members with
      | Some v => Ok v
      | None => Raise KeyError
      end
  | _ => Raise TypeError
  end.

(** [float(n)] for an integer [n]: the nearest binary64 number, ties to
    even; [OverflowError] when [n] is too large. *)
Definition float_of_int (z : Z) : outcome float :=
  match binary_normalize prec emax z 0%Z false with
  | S754_infinity _ => Raise OverflowError
  | sf => Ok (SF2Prim sf)
  end.

Section Fetch.
(** [float(s)] for a string [s]; [None] when it raises [ValueError]. *)
Variable float_of_str : string -> option float.

Definition py_float (v : json) : outcome float :=
  match v with
  | JFloat f => Ok f
  | JInt z => float_of_int z
  | JBool b => Ok (if b then 1%float else 0%float)
  | JStr s =>
      match float_of_str s with
      | Some f => Ok f
      | None => Raise ValueError
      end
  | JNull | JArr _ | JObj _ => Raise TypeError
  end.

Definition fetch_price (o : http_outcome) : option float :=
  try_except
    (r <- requests_get o ;;
     _ <- raise_for_status r ;;
     data <- response_json r ;;
     raw <- getitem data "price" ;;
     price <- py_float raw ;;
     Ok (Some price))
    (fun _ => None).
End Fetch.

(** ** Strings: [str.split()] and truth of a string *)

(** The characters [str.isspace] accepts below 128. *)
Definition is_space (c : ascii) : bool :=
  let n := nat_of_ascii c in
  ((9 <=? n) && (n <=? 13)) || ((28 <=? n) && (n <=? 32)).

(** [split_from word s]: the words of [s], [word] being the part of the
    current word already read. *)
Fixpoint split_from (word : string) (s : string) : list string :=
  match s with
  | EmptyString =>
      match word with
      | EmptyString => []
      | _ => [word]
      end
  | String c rest =>
      if is_space c then
        match word with
        | EmptyString => split_from EmptyString rest
        | _ => word :: split_from EmptyString rest
        end
      else split_from (word ++ String c EmptyString)%string rest
  end.

(** [s.split()]: the maximal runs of characters that are not spaces. *)
Definition split (s : string) : list string := split_from EmptyString s.

(** [if x:] for [x] a string or [None]. *)
Definition truthy (x : option string) : bool :=
  match x with
  | Some EmptyString => false
  | Some _ => true
  | None => false
  end.

(** [x != s] for [x] a string or [None] and [s] a string. *)
Definition str_ne (x : option string) (s : string) : bool :=
  match x with
  | Some t => negb (String.eqb t s)
  | None => true
  end.

(** ** Arrays of floats *)

(** [np.diff(arr)]. *)
Fixpoint np_diff (arr : list float) : list float :=
  match arr with
  | a :: (b :: _) as rest => (b - a)%float :: np_diff rest
  | _ => []
  end.

(** [xs / ys] for two arrays of one length. *)
Fixpoint np_divide (xs ys : list float) : list float :=
  match xs, ys with
  | x :: xs', y :: ys' => (x / y)%float :: np_divide xs' ys'
  | _, _ => []
  end.

(** ** What an evaluation returns, and what a tick sends *)

Module Info.
Record t : Type := {
  signal : option string;
  ma_short : option float;
  ma_long : option float;
  anomalous : bool
}.
End Info.

Module Payload.
Record t : Type := {
  price : float;
  timestamp : float;
  signal : option string;
  ma_short : option float;
  ma_long : option float;
  anomalous : option bool
}.
End Payload.

(** The module-level variables, and the payloads handed to [socketio.emit]
    so far, oldest first. *)
Record state : Type := {
  prices : list float;
  timestamps : list float;
  last_signal : option string;
  emitted : list Payload.t
}.

(** [prices] and [timestamps] start empty, [last_signal] is [None]. *)
Definition initial_state : state :=
  {| prices := []; timestamps := []; last_signal := None; emitted := [] |}.

(** What one turn of the loop reads from outside: the outcome of the request,
    and the clock, read only when a price came back. *)
Record tick_input : Type := {
  reply : http_outcome;
  clock : float
}.

(** ** Signal logic *)

Section Signals.
(** [pd.Series(series).rolling(window=w).mean().iloc[-1]]: the last entry
    of the rolling mean, a float (NaN when the window is not full). *)
Variable rolling_mean_last : nat -> list float -> float.

(** [IsolationForest(contamination=0.02, random_state=0)] fitted on the
    first argument, then [predict] on the second: the label, [1] or [-1],
    or the exception the library raises when it refuses the data (its
    input check raises [ValueError] on an infinite value, for one).  The
    seed is fixed, so the outcome is a function of the data. *)
Variable isolation_forest : list float -> float -> outcome Z.

Definition compute_moving_averages (series : list float) (short long : nat)
  : option float * option float :=
  if List.length series <? long then (None, None)
  else (Some (rolling_mean_last short series),
        Some (rolling_mean_last long series)).

Definition is_anomalous (returns_window : list float) : outcome bool :=
  if List.length returns_window <? 30 then Ok false
  else
    let X := returns_window in
    x_last <- last_item X ;;
    pred <- isolation_forest (removelast X) x_last ;;
    Ok (pred =? -1)%Z.

(** [evaluate_signals()] reads [prices] and reads and writes [last_signal]:
    it returns its value together with the new [last_signal].  An
    exception leaves from line 88, before the one assignment to
    [last_signal] in line 102. *)
Definition evaluate_signals (prices : list float) (last_signal : option string)
  : outcome (option Info.t * option string) :=
  if List.length prices <? 21 then Ok (None, last_signal)
  else
    let arr := prices in
    let '(ma_short, ma_long) := compute_moving_averages arr 5 20 in
    let returns := np_divide (np_diff arr) (removelast arr) in
    anomalous <- (if 50 <=? List.length returns
                  then is_anomalous (lastn 50 returns)
                  else Ok false) ;;
    let signal : option string := None in
    let signal :=
      match ma_short, ma_long with
      | Some s, Some l =>
          if (l <? s)%float && str_ne last_signal "BUY" then Some "BUY"
          else if (s <? l)%float && str_ne last_signal "SELL" then Some "SELL"
          else signal
      | _, _ => signal
      end in
    let signal :=
      match signal with
      | Some text =>
          if anomalous then Some (text ++ " (RISKY - anomaly)")%string
          else signal
      | None => signal
      end in
    last_signal <- (if truthy signal
                    then match signal with
                         | Some text =>
                             word <- first_item (split text) ;; Ok (Some word)
                         | None => Raise AttributeError
                         end
                    else Ok last_signal) ;;
    Ok (Some {| Info.signal := signal;
                Info.ma_short := ma_short;
                Info.ma_long := ma_long;
                Info.anomalous := anomalous |},
        last_signal).

(** ** The polling loop *)

Variable float_of_str : string -> option float.

(** The payload of a tick, from the price, the clock and what
    [evaluate_signals] returned. *)
Definition make_payload (price ts : float) (info : option Info.t) : Payload.t :=
  {| Payload.price := price;
     Payload.timestamp := ts;
     Payload.signal := match info with Some i => Info.signal i | None => None end;
     Payload.ma_short := match info with Some i => Info.ma_short i | None => None end;
     Payload.ma_long := match info with Some i => Info.ma_long i | None => None end;
     Payload.anomalous := match info with Some i => Some (Info.anomalous i) | None => None end |}.

(** One turn of [while True] in [background_price_poller]. *)
Definition poller_tick (st : state) (inp : tick_input) : outcome state :=
  match fetch_price float_of_str (reply inp) with
  | Some price =>
      let ts := clock inp in
      let prices' := Deque.append PRICE_WINDOW (prices st) price in
      let timestamps' := Deque.append PRICE_WINDOW (timestamps st) ts in
      r <- evaluate_signals prices' (last_signal st) ;;
      let '(info, last_signal') := r in
      let payload := make_payload price ts info in
      Ok {| prices := prices';
            timestamps := timestamps';
            last_signal := last_signal';
            emitted := emitted st ++ [payload] |}
  | None => Ok st
  end.

(** The loop over the turns whose inputs are given.  Nothing in the loop
    catches an exception: one that leaves [evaluate_signals] leaves the
    turn, after the two appends and before the emit, and ends the loop. *)
Fixpoint background_price_poller (st : state) (ticks : list tick_input)
  : outcome state :=
  match ticks with
  | [] => Ok st
  | inp :: rest =>
      st' <- poller_tick st inp ;;
      background_price_poller st' rest
  end.
End Signals.

(** ** Two parts of [evaluate_signals] by name

    The candidate of lines 90 to 95 as a function of the two averages and
    [last_signal], and the flag of line 88 as a function of [prices]. *)

Definition crossover (s l : float) (last_signal : option string) : option string :=
  if (l <? s)%float && str_ne last_signal "BUY" then Some "BUY"
  else if (s <? l)%float && str_ne last_signal "SELL" then Some "SELL"
  else None.

Definition anomaly_flag (isolation_forest : list float -> float -> outcome Z)
  (prices : list float) : outcome bool :=
  let returns := np_divide (np_diff prices) (removelast prices) in
  if 50 <=? List.length returns
  then is_anomalous isolation_forest (lastn 50 returns)
  else Ok false.

(** Lines 90 to 108 as a function of the two averages, [last_signal] and
    the flag: the dict returned and the new [last_signal]. *)
Definition decide (s l : float) (last_signal : option string) (anomalous : bool)
  : option Info.t * option string :=
  let candidate := crossover s l last_signal in
  (Some {| Info.signal :=
             match candidate with
             | Some text =>
                 if anomalous then Some (text ++ " (RISKY - anomaly)")%string
                 else Some text
             | None => None
             end;
           Info.ma_short := Some s;
           Info.ma_long := Some l;
           Info.anomalous := anomalous |},
   match candidate with
   | Some text => Some text
   | None => last_signal
   end).

(** What an evaluation emitted, and its result with the signal left out. *)
Definition emitted_signal (r : option Info.t) : option string :=
  match r with
  | Some i => Info.signal i
  | None => None
  end.

Definition without_signal (i : Info.t) : Info.t :=
  {| Info.signal := None;
     Info.ma_short := Info.ma_short i;
     Info.ma_long := Info.ma_long i;
     Info.anomalous := Info.anomalous i |}.

(** The values [last_signal] takes: [None], ["BUY"] or ["SELL"]. *)
Definition bare_direction (x : option string) : Prop :=
  x = None \/ x = Some "BUY" \/ x = Some "SELL".

(** The prices that came back in the given turns, each with the clock
    reading of its turn, in order. *)
Definition fetched (float_of_str : string -> option float)
  (ticks : list tick_input) : list (float * float) :=
  flat_map (fun inp =>
              match fetch_price float_of_str (reply inp) with
              | Some price => [(price, clock inp)]
              | None => []
              end) ticks.

(** ** Instances to run the model on

    Plain stand-ins for the three library calls, used where a statement
    is evaluated on concrete data. *)

Module Reference.
Definition float_of_nat (n : nat) : float :=
  SF2Prim (binary_normalize prec emax (Z.of_nat n) 0%Z false).

(** The sum of the last [w] entries, left to right, over [w]. *)
Definition mean_last (w : nat) (series : list float) : float :=
  if List.length series <? w then nan
  else (fold_left PrimFloat.add (lastn w series) 0 / float_of_nat w)%float.

(** What the input check lets through: neither NaN nor infinite nor
    beyond the largest single-precision float. *)
Definition accepted (x : float) : bool :=
  (abs x <=? 0x1.fffffep+127)%float.

(** Refuses data the input check refuses; otherwise flags a point that
    lies outside the range of the training data. *)
Definition range_detector (train : list float) (x : float) : outcome Z :=
  if forallb accepted train && accepted x then
    Ok (if forallb (fun t => (t <? x)%float) train
           || forallb (fun t => (x <? t)%float) train
        then (-1)%Z else 1%Z)
  else Raise ValueError.

Definition digit_of (c : ascii) : option Z :=
  let n := nat_of_ascii c in
  if (48 <=? n) && (n <=? 57) then Some (Z.of_nat (n - 48)) else None.

(** Reads digits: the number read after [acc], how many, and the rest. *)
Fixpoint read_digits (s : string) (acc : Z) (count : nat) : Z * nat * string :=
  match s with
  | EmptyString => (acc, count, s)
  | String c rest =>
      match digit_of c with
      | Some d => read_digits rest (10 * acc + d)%Z (S count)
      | None => (acc, count, s)
      end
  end.

(** The quotient of two integers that are floats themselves: the one
    rounding of the division gives the nearest float. *)
Definition exact_quotient (m : Z) (k : nat) : option float :=
  if (m <? 2 ^ 53)%Z && (k <=? 22)
  then Some (SF2Prim (binary_normalize prec emax m 0%Z false)
             / SF2Prim (binary_normalize prec emax (10 ^ Z.of_nat k) 0%Z false))%float
  else None.

(** Unsigned decimals such as [43250.12000000], as far as [exact_quotient]
    reaches; nothing else is read. *)
Definition read_decimal (s : string) : option float :=
  let '(whole, n1, rest) := read_digits s 0%Z 0 in
  match rest with
  | EmptyString => if n1 =? 0 then None else exact_quotient whole 0
  | String "."%char frac =>
      let '(m, n2, rest') := read_digits frac whole 0 in
      match rest' with
      | EmptyString => if n1 + n2 =? 0 then None else exact_quotient m n2
      | _ => None
      end
  | _ => None
  end.

(** A reply in the shape the ticker endpoint sends. *)
Definition ticker_reply (price : string) : http_outcome :=
  Responded {| status_code := 200;
               body := Some (JObj [("symbol", JStr "BTCUSDT");
                                   ("price", JStr price)]) |}.

Definition tick (price : string) (now : float) : tick_input :=
  {| reply := ticker_reply price; clock := now |}.

Definition no_reply (now : float) : tick_input :=
  {| reply := Failed; clock := now |}.

(** The floats [1.0], [2.0], ..., [n.0]. *)
Definition rising (n : nat) : list float := map float_of_nat (seq 1 n).

(** Fifty prices of 100.0, then 0.0, then 100.0: the last return is
    [(100.0 - 0.0) / 0.0], which is infinite. *)
Definition flat_then_zero : list float :=
  repeat 100%float 50 ++ [0%float; 100%float].

(** A reply whose price is a JSON number. *)
Definition number_tick (price : float) : tick_input :=
  {| reply := Responded {| status_code := 200;
                           body := Some (JObj [("price", JFloat price)]) |};
     clock := 0 |}.

(** One reply for each price of [flat_then_zero]. *)
Definition flat_then_zero_ticks : list tick_input :=
  map number_tick flat_then_zero.

(** Sixty replies with the prices 100.0, 101.0, ..., 159.0. *)
Definition steady_climb : list tick_input :=
  map (fun n => number_tick (float_of_nat n)) (seq 100 60).

(** The state the loop reaches on [steady_climb] with the stand-ins. *)
Definition after_steady_climb : state :=
  Eval vm_compute in
    match background_price_poller mean_last range_detector read_decimal
            initial_state steady_climb with
    | Ok st => st
    | Raise _ => initial_state
    end.

(** Thirty replies: the price climbs from 100 to 121, then falls to 99. *)
Definition climb_then_fall : list tick_input :=
  map (fun text => tick text 0)
    ["100"; "101"; "102"; "103"; "104"; "105"; "106"; "107"; "108"; "109";
     "110"; "111"; "112"; "113"; "114"; "115"; "116"; "117"; "118"; "119";
     "120"; "121"; "119.5"; "117"; "114"; "111"; "108"; "105"; "102"; "99"].
End Reference.

(** [0 < f < inf]: neither NaN, nor zero, nor negative, nor infinite. *)
Definition positive_finite (f : float) : bool :=
  (0 <? f)%float && (f <? infinity)%float.

(** ** The signals of a run *)

(** The direction a payload announces: the first word of its signal. *)
Definition direction_of (p : Payload.t) : list string :=
  match Payload.signal p with
  | Some text => firstn 1 (split text)
  | None => []
  end.

(** The directions announced by a list of payloads, oldest first. *)
Definition directions (log : list Payload.t) : list string :=
  flat_map direction_of log.

(** No two neighbours of the list are equal. *)
Fixpoint alternates (l : list string) : Prop :=
  match l with
  | a :: (b :: _) as rest => a <> b /\ alternates rest
  | _ => True
  end.

(** The last entry of a list, if there is one. *)
Definition last_opt {A : Type} (l : list A) : option A :=
  match rev l with
  | x :: _ => Some x
  | [] => None
  end.

(** Whether the fetch of a turn gave a price. *)
Definition has_price (float_of_str : string -> option float)
  (inp : tick_input) : bool :=
  match fetch_price float_of_str (reply inp) with
  | Some _ => true
  | None => false
  end.

(** The shape of the payload with index [k], counted from 0, in a run from
    the start. *)
Definition payload_shape (k : nat) (p : Payload.t) : Prop :=
  (k < 20 ->
   Payload.signal p = None /\ Payload.ma_short p = None
   /\ Payload.ma_long p = None /\ Payload.anomalous p = None)
  /\ (20 <= k ->
      exists (s l : float) (b : bool),
        Payload.ma_short p = Some s /\ Payload.ma_long p = Some l
        /\ Payload.anomalous p = Some b)
  /\ (k < 50 ->
      Payload.anomalous p <> Some true
      /\ (Payload.signal p = None \/ Payload.signal p = Some "BUY"
          \/ Payload.signal p = Some "SELL")).

(** The directions announced so far are ["BUY"] and ["SELL"] in turns, and
    [last_signal] is the latest of them. *)
Definition signals_in_order (st : state) : Prop :=
  last_signal st = last_opt (directions (emitted st))
  /\ alternates (directions (emitted st))
  /\ Forall (fun d => d = "BUY" \/ d = "SELL") (directions (emitted st)).

(** What a payload reports when the prices that came back up to and
    including its turn are [h] (each with its clock reading): once the
    history holds 21 prices, the two averages and the anomaly flag of the
    last [PRICE_WINDOW] of them. *)
Definition payload_reports
  (rolling_mean_last : nat -> list float -> float)
  (isolation_forest : list float -> float -> outcome Z)
  (h : list (float * float)) (p : Payload.t) : Prop :=
  let history := lastn PRICE_WINDOW (map fst h) in
  21 <= List.length history ->
  Payload.ma_short p = Some (rolling_mean_last 5 history)
  /\ Payload.ma_long p = Some (rolling_mean_last 20 history)
  /\ exists b : bool,
       anomaly_flag isolation_forest history = Ok b
       /\ Payload.anomalous p = Some b.

(** ** [crypto_utils.py]: the key file

    The files the program sees are a map from paths to contents; the paths
    name plain files that can be read and written.  [Fernet.generate_key()]
    hands out fresh random bytes: the bytes it hands out in a call are an
    argument of the call. *)

Definition files : Type := string -> option string.

(** [open(path, "wb")] followed by [write(data)]. *)
Definition write_file (fs : files) (path data : string) : files :=
  fun p => if String.eqb p path then Some data else fs p.

Definition generate_key (fresh : string) (path : string) (fs : files)
  : string * files :=
  let key := fresh in
  (key, write_file fs path key).

(** [os.path.exists(path)] holds when the map has the path; reading the
    file gives its content. *)
Definition load_key (fresh : string) (path : string) (fs : files)
  : string * files :=
  match fs path with
  | None => generate_key fresh path fs
  | Some data => (data, fs)
  end.

(** * Properties *)

(** ** The bounded history *)

Section DequeFacts.
Context {A : Type}.
Implicit Types (d l xs : list A) (x : A) (N n : nat).

Lemma lastn_all n l : List.length l <= n -> lastn n l = l.
Proof.
  intros H. unfold lastn.
  replace (List.length l - n) with 0 by lia. reflexivity.
Qed.

Lemma lastn_length n l : List.length (lastn n l) = Nat.min n (List.length l).
Proof. unfold lastn. rewrite length_skipn. lia. Qed.

Lemma append_length N d x :
  List.length d <= N -> List.length (Deque.append N d x) <= N.
Proof.
  intros H. unfold Deque.append. cbv zeta.
  destruct (N <? List.length (d ++ [x])) eqn:E.
  - destruct d as [|a d']; simpl in *.
    + apply Nat.ltb_lt in E. simpl in E. lia.
    + rewrite length_app. simpl. lia.
  - apply Nat.ltb_ge in E. exact E.
Qed.

Lemma append_lastn N d x :
  List.length d <= N -> Deque.append N d x = lastn N (d ++ [x]).
Proof.
  intros H. unfold Deque.append, lastn. cbv zeta.
  rewrite length_app. simpl List.length.
  destruct (N <? List.length d + 1) eqn:E.
  - apply Nat.ltb_lt in E.
    replace (List.length d + 1 - N) with 1 by lia.
    destruct (d ++ [x]); reflexivity.
  - apply Nat.ltb_ge in E.
    replace (List.length d + 1 - N) with 0 by lia. reflexivity.
Qed.

Lemma lastn_app_lastn N l xs : lastn N (lastn N l ++ xs) = lastn N (l ++ xs).
Proof.
  destruct (Nat.le_gt_cases (List.length l) N) as [Hle | Hgt].
  - now rewrite (lastn_all N l Hle).
  - unfold lastn at 1 3.
    rewrite !length_app, lastn_length.
    replace (Nat.min N (List.length l) + List.length xs - N)
      with (List.length xs) by lia.
    replace (List.length l + List.length xs - N)
      with (List.length xs + (List.length l - N)) by lia.
    rewrite <- skipn_skipn. f_equal.
    unfold lastn. rewrite skipn_app.
    replace (List.length l - N - List.length l) with 0 by lia.
    reflexivity.
Qed.

Lemma append_all_lastn N xs :
  forall d, List.length d <= N -> Deque.append_all N d xs = lastn N (d ++ xs).
Proof.
  induction xs as [|x xs IH]; intros d H.
  - simpl. rewrite app_nil_r. symmetry. now apply lastn_all.
  - unfold Deque.append_all in *. simpl.
    rewrite IH by now apply append_length.
    rewrite append_lastn by exact H.
    rewrite lastn_app_lastn, <- app_assoc. reflexivity.
Qed.
End DequeFacts.

(** C4.  Appending more than [N] samples, one by one, to an empty history
    of capacity [N] leaves exactly [N] samples: the last [N] appended, in
    the order they arrived.  An append to a full history drops the oldest
    sample.  The program's capacity is [PRICE_WINDOW = 200]. *)
Theorem rolling_series_keeps_last_N {A : Type} (N : nat) (xs : list A) :
  N < List.length xs ->
  List.length (Deque.append_all N [] xs) = N
  /\ Deque.append_all N [] xs = skipn (List.length xs - N) xs
  /\ (forall (d : list A) (x : A),
        List.length d = N -> Deque.append N d x = tl (d ++ [x])).
Proof.
  intros H.
  assert (E : Deque.append_all N [] xs = lastn N xs).
  { rewrite append_all_lastn by (simpl; lia). reflexivity. }
  split; [| split].
  - rewrite E, lastn_length. lia.
  - exact E.
  - intros d x Hd. unfold Deque.append. cbv zeta.
    rewrite length_app. simpl List.length.
    replace (N <? List.length d + 1) with true; [reflexivity |].
    symmetry. apply Nat.ltb_lt. lia.
Qed.

Lemma rolling_series_keeps_last_N_witness :
  PRICE_WINDOW < List.length (seq 0 203)
  /\ List.length (Deque.append_all PRICE_WINDOW [] (seq 0 203)) = PRICE_WINDOW
  /\ Deque.append_all PRICE_WINDOW [] (seq 0 203) = seq 3 200.
Proof.
  assert (H : PRICE_WINDOW < List.length (seq 0 203)) by (vm_compute; lia).
  destruct (rolling_series_keeps_last_N PRICE_WINDOW (seq 0 203) H) as (Hl & Hc & _).
  split; [exact H | split; [exact Hl |]].
  rewrite Hc. vm_compute. reflexivity.
Defined.

(** ** The anomaly gate *)

(** C5.  On a window of fewer than 30 returns [is_anomalous] returns
    [False], whatever the classifier would say. *)
Theorem is_anomalous_short_window
  (isolation_forest : list float -> float -> outcome Z)
  (returns_window : list float) :
  List.length returns_window < 30 ->
  is_anomalous isolation_forest returns_window = Ok false.
Proof.
  intros H. unfold is_anomalous.
  apply Nat.ltb_lt in H. rewrite H. reflexivity.
Qed.

Lemma is_anomalous_short_window_witness :
  List.length (Reference.rising 29) < 30
  /\ is_anomalous (fun _ _ => Ok (-1)%Z) (Reference.rising 29) = Ok false
  /\ is_anomalous (fun _ _ => Raise ValueError) (Reference.rising 29) = Ok false.
Proof.
  assert (H : List.length (Reference.rising 29) < 30) by (vm_compute; lia).
  split; [exact H | split].
  - exact (is_anomalous_short_window (fun _ _ => Ok (-1)%Z) (Reference.rising 29) H).
  - exact (is_anomalous_short_window (fun _ _ => Raise ValueError)
             (Reference.rising 29) H).
Defined.

(** ** Comparison of floats *)

Lemma SFcompare_Lt_Gt (a b : spec_float) :
  SFcompare a b = Some Lt -> SFcompare b a = Some Gt.
Proof.
  destruct a as [sa | sa | | sa ma ea], b as [sb | sb | | sb mb eb]; simpl;
    try discriminate;
    try (destruct sa; discriminate || reflexivity);
    try (destruct sb; discriminate || reflexivity);
    try (destruct sa, sb; discriminate || reflexivity).
  destruct sa, sb; try discriminate; try reflexivity;
    rewrite (Z.compare_antisym ea eb);
    destruct (ea ?= eb)%Z; simpl; try discriminate; try reflexivity;
    replace (Pos.compare_cont Eq mb ma)
      with (CompOpp (Pos.compare_cont Eq ma mb))
      by apply (Pos.compare_cont_antisym ma mb Eq);
    destruct (Pos.compare_cont Eq ma mb); simpl; discriminate || reflexivity.
Qed.

(** [x < y] excludes [y < x], NaN and infinities included. *)
Lemma ltb_asym (x y : float) :
  (x <? y)%float = true -> (y <? x)%float = false.
Proof.
  rewrite !ltb_spec. unfold SFltb. intros H.
  destruct (SFcompare (Prim2SF x) (Prim2SF y)) as [[]|] eqn:E; try discriminate.
  now rewrite (SFcompare_Lt_Gt _ _ E).
Qed.

Lemma is_nan_spec (x : float) : is_nan x = true -> Prim2SF x = S754_nan.
Proof.
  unfold is_nan. rewrite negb_true_iff, eqb_spec. unfold SFeqb.
  destruct (Prim2SF x) as [s | s | | s m e]; simpl; try discriminate.
  - destruct s; discriminate.
  - reflexivity.
  - destruct s; rewrite Z.compare_refl, Pos.compare_cont_refl; discriminate.
Qed.

(** Nothing is below a NaN and nothing is above it. *)
Lemma ltb_nan (x y : float) :
  is_nan x = true -> (x <? y)%float = false /\ (y <? x)%float = false.
Proof.
  intros H. apply is_nan_spec in H.
  rewrite !ltb_spec, H. unfold SFltb.
  split; [reflexivity |].
  destruct (Prim2SF y); reflexivity.
Qed.

Lemma str_ne_true (x : option string) (s : string) :
  str_ne x s = true <-> x <> Some s.
Proof.
  destruct x as [t|]; simpl.
  - rewrite negb_true_iff. split.
    + intros H E. injection E as ->. rewrite String.eqb_refl in H. discriminate.
    + intros H. apply String.eqb_neq. congruence.
  - split; [discriminate | reflexivity].
Qed.

(** ** Lists: lengths of the returns, last entries, neighbours *)

Lemma np_diff_length (arr : list float) :
  List.length (np_diff arr) = List.length arr - 1.
Proof.
  induction arr as [|a arr IH]; [reflexivity |].
  destruct arr as [|b t]; [reflexivity |].
  change (np_diff (a :: b :: t)) with ((b - a)%float :: np_diff (b :: t)).
  cbn [List.length] in *. rewrite IH. lia.
Qed.

Lemma removelast_length {A : Type} (l : list A) :
  List.length (removelast l) = List.length l - 1.
Proof.
  induction l as [|a l IH]; [reflexivity |].
  destruct l as [|b t]; [reflexivity |].
  change (removelast (a :: b :: t)) with (a :: removelast (b :: t)).
  cbn [List.length] in *. rewrite IH. lia.
Qed.

Lemma np_divide_length (xs ys : list float) :
  List.length (np_divide xs ys) = Nat.min (List.length xs) (List.length ys).
Proof.
  revert ys. induction xs as [|x xs IH]; intros [|y ys]; try reflexivity.
  cbn [np_divide List.length Nat.min]. now rewrite IH.
Qed.

(** There is one return fewer than there are prices. *)
Lemma returns_length (prices : list float) :
  List.length (np_divide (np_diff prices) (removelast prices))
  = List.length prices - 1.
Proof. rewrite np_divide_length, np_diff_length, removelast_length. lia. Qed.

Lemma lastn_map {A B : Type} (f : A -> B) (n : nat) (l : list A) :
  lastn n (map f l) = map f (lastn n l).
Proof. unfold lastn. now rewrite length_map, skipn_map. Qed.

Lemma combine_fst_snd {A B : Type} (l : list (A * B)) :
  combine (map fst l) (map snd l) = l.
Proof.
  induction l as [|[a b] l IH]; [reflexivity |].
  cbn [map combine fst snd]. now rewrite IH.
Qed.

Lemma append_length_exact {A : Type} (N : nat) (d : list A) (x : A) :
  List.length d <= N ->
  List.length (Deque.append N d x) = Nat.min N (List.length d + 1).
Proof.
  intros H. rewrite append_lastn by exact H.
  rewrite lastn_length, length_app. reflexivity.
Qed.

Lemma last_opt_snoc {A : Type} (l : list A) (x : A) :
  last_opt (l ++ [x]) = Some x.
Proof. unfold last_opt. now rewrite rev_app_distr. Qed.

Lemma last_opt_cons {A : Type} (a b : A) (l : list A) :
  last_opt (a :: b :: l) = last_opt (b :: l).
Proof.
  unfold last_opt. cbn [rev].
  destruct (rev l ++ [b]) as [|x r] eqn:E; [| reflexivity].
  destruct (rev l); discriminate E.
Qed.

Lemma alternates_snoc (l : list string) (x : string) :
  alternates l -> last_opt l <> Some x -> alternates (l ++ [x]).
Proof.
  induction l as [|a l IH]; intros Al La; [exact I |].
  destruct l as [|b t].
  - split; [| exact I]. intros ->. now apply La.
  - destruct Al as [D Al]. split; [exact D |].
    apply IH; [exact Al |]. now rewrite <- (last_opt_cons a b t).
Qed.

Lemma last_item_last (w : list float) :
  w <> [] -> last_item w = Ok (last w 0%float).
Proof.
  intros H. destruct (exists_last H) as (w' & x & ->).
  unfold last_item. rewrite rev_app_distr, last_last. reflexivity.
Qed.

(** ** One evaluation *)

Section SignalFacts.
Variable rolling_mean_last : nat -> list float -> float.
Variable isolation_forest : list float -> float -> outcome Z.

(** On 30 returns or more the outcome is the classifier's: its label
    read as a flag, or its exception. *)
Lemma is_anomalous_long (w : list float) :
  30 <= List.length w ->
  is_anomalous isolation_forest w
  = (pred <- isolation_forest (removelast w) (last w 0%float) ;;
     Ok (pred =? -1)%Z).
Proof.
  intros H. unfold is_anomalous.
  replace (List.length w <? 30) with false
    by (symmetry; apply Nat.ltb_ge; exact H).
  rewrite last_item_last; [reflexivity |].
  intros ->. simpl in H. lia.
Qed.

(** With 50 prices or fewer the classifier is not called. *)
Lemma anomaly_flag_needs_51 (prices : list float) :
  List.length prices <= 50 -> anomaly_flag isolation_forest prices = Ok false.
Proof.
  intros H. unfold anomaly_flag. cbv zeta. rewrite returns_length.
  replace (50 <=? List.length prices - 1) with false; [reflexivity |].
  symmetry. apply Nat.leb_gt. lia.
Qed.

Lemma anomaly_flag_raises (prices : list float) (e : exn) :
  anomaly_flag isolation_forest prices = Raise e -> 51 <= List.length prices.
Proof.
  intros H. destruct (Nat.le_gt_cases (List.length prices) 50) as [L | L];
    [| exact L].
  rewrite (anomaly_flag_needs_51 prices L) in H. discriminate H.
Qed.

(** With 21 prices or more, [evaluate_signals] is the anomaly check
    followed by the decision, which raises nothing. *)
Lemma evaluate_signals_long (prices : list float) (last_signal : option string) :
  21 <= List.length prices ->
  evaluate_signals rolling_mean_last isolation_forest prices last_signal
  = (anomalous <- anomaly_flag isolation_forest prices ;;
     Ok (decide (rolling_mean_last 5 prices) (rolling_mean_last 20 prices)
           last_signal anomalous)).
Proof.
  intros H. unfold evaluate_signals, compute_moving_averages.
  replace (List.length prices <? 21) with false
    by (symmetry; apply Nat.ltb_ge; lia).
  replace (List.length prices <? 20) with false
    by (symmetry; apply Nat.ltb_ge; lia).
  cbv zeta. fold (anomaly_flag isolation_forest prices).
  destruct (anomaly_flag isolation_forest prices) as [b|e]; [| reflexivity].
  unfold decide, crossover, bind.
  destruct (_ && str_ne last_signal "BUY");
    [| destruct (_ && str_ne last_signal "SELL")];
    destruct b; reflexivity.
Qed.

Lemma evaluate_signals_short (prices : list float) (last_signal : option string) :
  List.length prices < 21 ->
  evaluate_signals rolling_mean_last isolation_forest prices last_signal
  = Ok (None, last_signal).
Proof.
  intros H. unfold evaluate_signals.
  apply Nat.ltb_lt in H. rewrite H. reflexivity.
Qed.

(** The two ways an evaluation ends: it raises what the anomaly check
    raised, or it returns [None] on a short history and the decision on a
    long one. *)
Lemma evaluate_signals_cases (prices : list float) (last_signal : option string) :
  (List.length prices < 21
   /\ evaluate_signals rolling_mean_last isolation_forest prices last_signal
      = Ok (None, last_signal))
  \/ (21 <= List.length prices
      /\ exists b : bool,
           anomaly_flag isolation_forest prices = Ok b
           /\ evaluate_signals rolling_mean_last isolation_forest prices
                last_signal
              = Ok (decide (rolling_mean_last 5 prices)
                      (rolling_mean_last 20 prices) last_signal b))
  \/ (51 <= List.length prices
      /\ exists e : exn,
           anomaly_flag isolation_forest prices = Raise e
           /\ evaluate_signals rolling_mean_last isolation_forest prices
                last_signal = Raise e).
Proof.
  destruct (Nat.lt_ge_cases (List.length prices) 21) as [Hs | Hl].
  - left. split; [exact Hs | now apply evaluate_signals_short].
  - right. rewrite (evaluate_signals_long prices last_signal Hl).
    destruct (anomaly_flag isolation_forest prices) as [b|e] eqn:F.
    + left. split; [exact Hl |]. exists b. split; reflexivity.
    + right. split; [now apply (anomaly_flag_raises prices e) |].
      exists e. split; reflexivity.
Qed.

Lemma crossover_cases (s l : float) (last_signal : option string) :
  (crossover s l last_signal = Some "BUY"
   /\ (l <? s)%float = true /\ last_signal <> Some "BUY")
  \/ (crossover s l last_signal = Some "SELL"
      /\ (s <? l)%float = true /\ last_signal <> Some "SELL"
      /\ ~ ((l <? s)%float = true /\ last_signal <> Some "BUY"))
  \/ (crossover s l last_signal = None
      /\ ~ ((l <? s)%float = true /\ last_signal <> Some "BUY")
      /\ ~ ((s <? l)%float = true /\ last_signal <> Some "SELL")).
Proof.
  unfold crossover.
  destruct ((l <? s)%float && str_ne last_signal "BUY") eqn:B.
  - left. apply andb_true_iff in B. rewrite str_ne_true in B. tauto.
  - assert (NB : ~ ((l <? s)%float = true /\ last_signal <> Some "BUY")).
    { rewrite <- str_ne_true, <- andb_true_iff, B. discriminate. }
    destruct ((s <? l)%float && str_ne last_signal "SELL") eqn:S.
    + right; left. apply andb_true_iff in S. rewrite str_ne_true in S. tauto.
    + right; right. split; [reflexivity | split; [exact NB |]].
      rewrite <- str_ne_true, <- andb_true_iff, S. discriminate.
Qed.

(** Once an evaluation has run, the same averages give no candidate. *)
Lemma crossover_settles (s l : float) (last_signal : option string) :
  crossover s l
    match crossover s l last_signal with
    | Some text => Some text
    | None => last_signal
    end = None.
Proof.
  destruct (crossover_cases s l last_signal)
    as [(E & B1 & B2) | [(E & S1 & S2 & NB) | (E & NB & NS)]]; rewrite E.
  - unfold crossover. rewrite B1, (ltb_asym _ _ B1). reflexivity.
  - unfold crossover. rewrite S1, (ltb_asym _ _ S1). reflexivity.
  - exact E.
Qed.
End SignalFacts.

(** ** The claims about one evaluation *)

Section Evaluation.
Variable rolling_mean_last : nat -> list float -> float.
Variable isolation_forest : list float -> float -> outcome Z.

(** C10.  With 21 prices or more, [compute_moving_averages] returns two
    floats, never [None]; every dict [evaluate_signals] returns carries
    those two floats as [ma_short] and [ma_long].  It returns one unless
    the anomaly check raises, which takes 51 prices or more. *)
Theorem averages_defined_from_21 (prices : list float) (last_signal : option string) :
  21 <= List.length prices ->
  exists s l : float,
    compute_moving_averages rolling_mean_last prices 5 20 = (Some s, Some l)
    /\ match evaluate_signals rolling_mean_last isolation_forest prices
               last_signal with
       | Ok (r, _) =>
           exists info : Info.t,
             r = Some info
             /\ Info.ma_short info = Some s
             /\ Info.ma_long info = Some l
       | Raise e =>
           anomaly_flag isolation_forest prices = Raise e
           /\ 51 <= List.length prices
       end.
Proof.
  intros H.
  exists (rolling_mean_last 5 prices), (rolling_mean_last 20 prices).
  split.
  - unfold compute_moving_averages.
    replace (List.length prices <? 20) with false
      by (symmetry; apply Nat.ltb_ge; lia).
    reflexivity.
  - destruct (evaluate_signals_cases rolling_mean_last isolation_forest
                prices last_signal)
      as [(Hs & _) | [(_ & b & _ & E) | (L & e & F & E)]]; [lia | |];
      rewrite E.
    + unfold decide. eexists. repeat split.
    + split; assumption.
Qed.

(** C2.  With fewer than 21 prices, [evaluate_signals] raises nothing and
    returns [None], leaving [last_signal] as it was; the payload the loop
    builds from it has [signal], [ma_short] and [ma_long] all [None]. *)
Theorem short_history_gives_none
  (prices : list float) (last_signal : option string) (price ts : float) :
  List.length prices < 21 ->
  evaluate_signals rolling_mean_last isolation_forest prices last_signal
    = Ok (None, last_signal)
  /\ Payload.signal (make_payload price ts None) = None
  /\ Payload.ma_short (make_payload price ts None) = None
  /\ Payload.ma_long (make_payload price ts None) = None.
Proof.
  intros H. split; [now apply evaluate_signals_short |].
  repeat split.
Qed.

(** What the decision emits, by the two averages and [last_signal]. *)
Lemma decide_rule (s l : float) (last_signal : option string) (b : bool) :
  let signal := emitted_signal (fst (decide s l last_signal b)) in
  ((signal = Some "BUY" \/ signal = Some "BUY (RISKY - anomaly)")
   <-> ((l <? s)%float = true /\ last_signal <> Some "BUY"))
  /\ ((signal = Some "SELL" \/ signal = Some "SELL (RISKY - anomaly)")
      <-> ((s <? l)%float = true /\ last_signal <> Some "SELL"))
  /\ (signal = None
      <-> (~ ((l <? s)%float = true /\ last_signal <> Some "BUY")
           /\ ~ ((s <? l)%float = true /\ last_signal <> Some "SELL"))).
Proof.
  cbv zeta. unfold decide. cbn [fst emitted_signal Info.signal].
  destruct (crossover_cases s l last_signal)
    as [(E & B1 & B2) | [(E & S1 & S2 & NB) | (E & NB & NS)]];
    rewrite E; clear E.
  - assert (A : (s <? l)%float = false) by now apply ltb_asym.
    destruct b;
      (split; [| split]); split; intros K;
      try (destruct K as [K | K]; discriminate K);
      try discriminate K; try tauto;
      try (destruct K as [K _]; rewrite A in K; discriminate K).
    all: destruct K as [K _]; tauto.
  - destruct b;
      (split; [| split]); split; intros K;
      try (destruct K as [K | K]; discriminate K);
      try discriminate K; tauto.
  - (split; [| split]); split; intros K;
      try (destruct K as [K | K]; discriminate K); tauto.
Qed.

(** C1, as the program has it.  With 21 prices or more, when the anomaly
    check returns, the evaluation emits a BUY signal (bare or marked
    risky) exactly when the short average is above the long one and
    [last_signal] is not ["BUY"]; a SELL signal exactly when the short
    average is below the long one and [last_signal] is not ["SELL"]; and
    no signal exactly when neither holds.  When the anomaly check
    raises, the evaluation raises the same exception and emits nothing.
    With 50 prices or fewer the check returns. *)
Theorem crossover_rule (prices : list float) (last_signal : option string) :
  21 <= List.length prices ->
  let s := rolling_mean_last 5 prices in
  let l := rolling_mean_last 20 prices in
  (forall b : bool,
     anomaly_flag isolation_forest prices = Ok b ->
     exists (info : Info.t) (last_signal' : option string),
       evaluate_signals rolling_mean_last isolation_forest prices last_signal
         = Ok (Some info, last_signal')
       /\ ((Info.signal info = Some "BUY"
            \/ Info.signal info = Some "BUY (RISKY - anomaly)")
           <-> ((l <? s)%float = true /\ last_signal <> Some "BUY"))
       /\ ((Info.signal info = Some "SELL"
            \/ Info.signal info = Some "SELL (RISKY - anomaly)")
           <-> ((s <? l)%float = true /\ last_signal <> Some "SELL"))
       /\ (Info.signal info = None
           <-> (~ ((l <? s)%float = true /\ last_signal <> Some "BUY")
                /\ ~ ((s <? l)%float = true /\ last_signal <> Some "SELL"))))
  /\ (forall e : exn,
        anomaly_flag isolation_forest prices = Raise e ->
        evaluate_signals rolling_mean_last isolation_forest prices last_signal
          = Raise e)
  /\ (List.length prices <= 50 ->
      anomaly_flag isolation_forest prices = Ok false).
Proof.
  intros H s l. split; [| split].
  - intros b F.
    rewrite (evaluate_signals_long _ _ prices last_signal H), F. cbn [bind].
    fold s l.
    pose proof (decide_rule s l last_signal b) as R. cbv zeta in R.
    unfold decide in *. cbn [fst emitted_signal] in R.
    do 2 eexists. split; [reflexivity |]. exact R.
  - intros e F.
    rewrite (evaluate_signals_long _ _ prices last_signal H), F. reflexivity.
  - apply anomaly_flag_needs_51.
Qed.

End Evaluation.

(** ** The anomaly mark and a repeated evaluation *)

Section Marking.
Variable rolling_mean_last : nat -> list float -> float.
Variable isolation_forest : list float -> float -> outcome Z.

(** The text the decision emits for a candidate, by the flag. *)
Lemma decide_text (s l : float) (last_signal : option string) (b : bool) :
  exists (info : Info.t) (last_signal' : option string),
    decide s l last_signal b = (Some info, last_signal')
    /\ Info.anomalous info = b
    /\ ((l <? s)%float = true /\ last_signal <> Some "BUY" ->
        Info.signal info
        = Some (if b then "BUY (RISKY - anomaly)" else "BUY"))
    /\ ((s <? l)%float = true /\ last_signal <> Some "SELL" ->
        Info.signal info
        = Some (if b then "SELL (RISKY - anomaly)" else "SELL")).
Proof.
  unfold decide. do 2 eexists. split; [reflexivity |].
  cbn [Info.anomalous Info.signal]. split; [reflexivity | split].
  - intros B.
    destruct (crossover_cases s l last_signal)
      as [(E & _) | [(_ & _ & _ & NB) | (_ & NB & _)]]; try tauto.
    rewrite E. destruct b; reflexivity.
  - intros S.
    destruct (crossover_cases s l last_signal)
      as [(_ & B1 & _) | [(E & _) | (_ & _ & NS)]]; try tauto.
    + destruct S as [S _]. apply ltb_asym in S. congruence.
    + rewrite E. destruct b; reflexivity.
Qed.

(** C6, as the program has it.  With 21 prices or more: when there are
    fewer than 50 returns the anomaly flag is [False] and a BUY or SELL
    candidate is emitted bare; otherwise the flag is what [is_anomalous]
    says of the last 50 returns, and a candidate is emitted in either
    case, followed by the text [" (RISKY - anomaly)"] when the flag is
    set and bare when it is not.  When [is_anomalous] raises, the
    evaluation raises the same exception and emits nothing. *)
Theorem anomaly_marks_signal (prices : list float) (last_signal : option string) :
  21 <= List.length prices ->
  let s := rolling_mean_last 5 prices in
  let l := rolling_mean_last 20 prices in
  let returns := np_divide (np_diff prices) (removelast prices) in
  (List.length returns < 50 ->
   exists (info : Info.t) (last_signal' : option string),
     evaluate_signals rolling_mean_last isolation_forest prices last_signal
       = Ok (Some info, last_signal')
     /\ Info.anomalous info = false
     /\ ((l <? s)%float = true /\ last_signal <> Some "BUY" ->
         Info.signal info = Some "BUY")
     /\ ((s <? l)%float = true /\ last_signal <> Some "SELL" ->
         Info.signal info = Some "SELL"))
  /\ (50 <= List.length returns ->
      match is_anomalous isolation_forest (lastn 50 returns) with
      | Ok b =>
          exists (info : Info.t) (last_signal' : option string),
            evaluate_signals rolling_mean_last isolation_forest prices
              last_signal = Ok (Some info, last_signal')
            /\ Info.anomalous info = b
            /\ ((l <? s)%float = true /\ last_signal <> Some "BUY" ->
                Info.signal info
                = Some (if b then "BUY (RISKY - anomaly)" else "BUY"))
            /\ ((s <? l)%float = true /\ last_signal <> Some "SELL" ->
                Info.signal info
                = Some (if b then "SELL (RISKY - anomaly)" else "SELL"))
      | Raise e =>
          evaluate_signals rolling_mean_last isolation_forest prices
            last_signal = Raise e
      end).
Proof.
  intros H s l returns.
  rewrite (evaluate_signals_long _ _ prices last_signal H). fold s l.
  unfold anomaly_flag. cbv zeta. fold returns.
  split; intros K.
  - apply Nat.leb_gt in K. rewrite K. cbn [bind].
    destruct (decide_text s l last_signal false) as (i & n & D & A & B & S).
    exists i, n. rewrite D. repeat split; assumption.
  - apply Nat.leb_le in K. rewrite K.
    destruct (is_anomalous isolation_forest (lastn 50 returns)) as [b|e];
      cbn [bind]; [| reflexivity].
    destruct (decide_text s l last_signal b) as (i & n & D & A & B & S).
    exists i, n. rewrite D. repeat split; assumption.
Qed.

(** An evaluation after one that returned: same flag, no candidate. *)
Lemma decide_again (s l : float) (last_signal : option string) (b : bool) :
  decide s l (snd (decide s l last_signal b)) b
  = (option_map without_signal (fst (decide s l last_signal b)),
     snd (decide s l last_signal b)).
Proof.
  unfold decide at 1. cbn [decide snd fst option_map without_signal
                           Info.ma_short Info.ma_long Info.anomalous].
  rewrite crossover_settles. reflexivity.
Qed.

(** C3, as the program has it.  Two evaluations of one snapshot, the second
    seeing the [last_signal] the first left.  When the first returns, the
    second returns what the first returned with the signal left out, and
    leaves [last_signal] alone; the two results are equal exactly when the
    first emitted no signal, and then the first left [last_signal] alone
    too.  When the first raises, it has not touched [last_signal], and
    the evaluation of that snapshot raises alike whatever [last_signal]
    is. *)
Theorem evaluate_twice (prices : list float) (last_signal : option string) :
  match evaluate_signals rolling_mean_last isolation_forest prices
          last_signal with
  | Ok (r1, last_signal') =>
      evaluate_signals rolling_mean_last isolation_forest prices last_signal'
        = Ok (option_map without_signal r1, last_signal')
      /\ (option_map without_signal r1 = r1 <-> emitted_signal r1 = None)
      /\ (emitted_signal r1 = None -> last_signal' = last_signal)
  | Raise e =>
      forall other : option string,
        evaluate_signals rolling_mean_last isolation_forest prices other
          = Raise e
  end.
Proof.
  destruct (evaluate_signals_cases rolling_mean_last isolation_forest
              prices last_signal)
    as [(Hs & E) | [(Hl & b & F & E) | (L & e & F & E)]]; rewrite E.
  - rewrite E. repeat split; reflexivity.
  - set (s := rolling_mean_last 5 prices).
    set (l := rolling_mean_last 20 prices).
    pose proof (decide_again s l last_signal b) as A.
    destruct (decide s l last_signal b) as [r1 s1] eqn:D.
    cbn [fst snd] in A.
    rewrite (evaluate_signals_long _ _ prices s1 Hl), F. cbn [bind].
    fold s l. split; [now rewrite A |].
    unfold decide in D. injection D as <- <-.
    cbn [option_map without_signal emitted_signal Info.signal Info.ma_short
         Info.ma_long Info.anomalous].
    destruct (crossover s l last_signal) as [text|].
    + split; [split; intros K |]; try discriminate K.
      * destruct b; discriminate K.
      * destruct b; discriminate K.
      * destruct b; intros K; discriminate K.
    + repeat split; reflexivity.
  - intros other.
    assert (H21 : 21 <= List.length prices) by lia.
    rewrite (evaluate_signals_long _ _ prices other H21), F. reflexivity.
Qed.
End Marking.

(** ** The loop *)

Section Loop.
Variable rolling_mean_last : nat -> list float -> float.
Variable isolation_forest : list float -> float -> outcome Z.
Variable float_of_str : string -> option float.

(** An evaluation that returns either emits nothing and leaves
    [last_signal] alone, or emits a direction that differs from
    [last_signal] and records it bare. *)
Lemma evaluate_signals_moves
  (prices : list float) (last_signal : option string)
  (info : option Info.t) (last_signal' : option string) :
  evaluate_signals rolling_mean_last isolation_forest prices last_signal
    = Ok (info, last_signal') ->
  (emitted_signal info = None /\ last_signal' = last_signal)
  \/ exists d : string,
       (d = "BUY" \/ d = "SELL")
       /\ last_signal <> Some d
       /\ last_signal' = Some d
       /\ (emitted_signal info = Some d
           \/ emitted_signal info = Some (d ++ " (RISKY - anomaly)")%string).
Proof.
  intros E.
  destruct (evaluate_signals_cases rolling_mean_last isolation_forest
              prices last_signal)
    as [(_ & E1) | [(_ & b & _ & E1) | (_ & e & _ & E1)]];
    rewrite E1 in E; [| | discriminate E].
  - injection E as <- <-. left. split; reflexivity.
  - unfold decide in E. injection E as <- <-.
    cbn [emitted_signal Info.signal].
    destruct (crossover_cases (rolling_mean_last 5 prices)
                (rolling_mean_last 20 prices) last_signal)
      as [(C & _ & D) | [(C & _ & D & _) | (C & _)]]; rewrite C.
    + right. exists "BUY". destruct b; repeat split; auto.
    + right. exists "SELL". destruct b; repeat split; auto.
    + left. split; reflexivity.
Qed.

Lemma poller_tick_no_price (st : state) (inp : tick_input) :
  fetch_price float_of_str (reply inp) = None ->
  poller_tick rolling_mean_last isolation_forest float_of_str st inp = Ok st.
Proof. intros H. unfold poller_tick. rewrite H. reflexivity. Qed.

(** A turn that ends well either had no price and changed nothing, or
    appended its price, evaluated and emitted one payload. *)
Lemma poller_tick_returns (st st' : state) (inp : tick_input) :
  poller_tick rolling_mean_last isolation_forest float_of_str st inp = Ok st' ->
  (fetch_price float_of_str (reply inp) = None /\ st' = st)
  \/ exists (price : float) (info : option Info.t) (last_signal' : option string),
       fetch_price float_of_str (reply inp) = Some price
       /\ evaluate_signals rolling_mean_last isolation_forest
            (Deque.append PRICE_WINDOW (prices st) price) (last_signal st)
          = Ok (info, last_signal')
       /\ st' = {| prices := Deque.append PRICE_WINDOW (prices st) price;
                   timestamps :=
                     Deque.append PRICE_WINDOW (timestamps st) (clock inp);
                   last_signal := last_signal';
                   emitted :=
                     emitted st ++ [make_payload price (clock inp) info] |}.
Proof.
  unfold poller_tick.
  destruct (fetch_price float_of_str (reply inp)) as [price|].
  - cbv zeta.
    destruct (evaluate_signals rolling_mean_last isolation_forest
                (Deque.append PRICE_WINDOW (prices st) price) (last_signal st))
      as [[info last']|e] eqn:E; cbn [bind]; [| discriminate].
    intros K. injection K as <-. right. exists price, info, last'.
    repeat split. exact E.
  - intros K. injection K as <-. left. split; reflexivity.
Qed.

(** A turn raises only what the evaluation of its price raised. *)
Lemma poller_tick_raises (st : state) (inp : tick_input) (e : exn) :
  poller_tick rolling_mean_last isolation_forest float_of_str st inp = Raise e ->
  exists price : float,
    fetch_price float_of_str (reply inp) = Some price
    /\ evaluate_signals rolling_mean_last isolation_forest
         (Deque.append PRICE_WINDOW (prices st) price) (last_signal st)
       = Raise e.
Proof.
  unfold poller_tick.
  destruct (fetch_price float_of_str (reply inp)) as [price|];
    [| discriminate].
  cbv zeta.
  destruct (evaluate_signals rolling_mean_last isolation_forest
              (Deque.append PRICE_WINDOW (prices st) price) (last_signal st))
    as [[info last']|e'] eqn:E; cbn [bind]; [discriminate |].
  intros K. injection K as <-. exists price. split; [reflexivity | exact E].
Qed.

Lemma poller_cons_returns (st st' : state) (inp : tick_input)
  (rest : list tick_input) :
  background_price_poller rolling_mean_last isolation_forest float_of_str
    st (inp :: rest) = Ok st' ->
  exists st1 : state,
    poller_tick rolling_mean_last isolation_forest float_of_str st inp = Ok st1
    /\ background_price_poller rolling_mean_last isolation_forest float_of_str
         st1 rest = Ok st'.
Proof.
  cbn [background_price_poller].
  destruct (poller_tick rolling_mean_last isolation_forest float_of_str st inp)
    as [st1|e]; cbn [bind]; [| discriminate].
  intros K. exists st1. split; [reflexivity | exact K].
Qed.

(** What every turn that ends well keeps, every run that ends well keeps. *)
Lemma poller_keeps (Inv : state -> Prop) :
  (forall st st' inp,
     Inv st ->
     poller_tick rolling_mean_last isolation_forest float_of_str st inp = Ok st' ->
     Inv st') ->
  forall (ticks : list tick_input) (st st' : state),
    Inv st ->
    background_price_poller rolling_mean_last isolation_forest float_of_str
      st ticks = Ok st' ->
    Inv st'.
Proof.
  intros Step ticks. induction ticks as [|inp rest IH]; intros st st' I R.
  - injection R as <-. exact I.
  - destruct (poller_cons_returns st st' inp rest R) as (st1 & T & R1).
    exact (IH st1 st' (Step st st1 inp I T) R1).
Qed.

(** The loop lives through the turns before the first that raises: all
    of them when none does. *)
Lemma poller_lives (ticks : list tick_input) :
  forall st : state,
    exists (n : nat) (st' : state),
      n <= List.length ticks
      /\ background_price_poller rolling_mean_last isolation_forest
           float_of_str st (firstn n ticks) = Ok st'
      /\ (n = List.length ticks
          \/ exists (inp : tick_input) (e : exn),
               nth_error ticks n = Some inp
               /\ poller_tick rolling_mean_last isolation_forest float_of_str
                    st' inp = Raise e
               /\ background_price_poller rolling_mean_last isolation_forest
                    float_of_str st ticks = Raise e).
Proof.
  induction ticks as [|inp rest IH]; intros st.
  - exists 0, st. split; [reflexivity | split; [reflexivity | now left]].
  - destruct (poller_tick rolling_mean_last isolation_forest float_of_str st inp)
      as [st1|e] eqn:T.
    + destruct (IH st1) as (n & st' & Ln & R & D).
      exists (S n), st'. cbn [List.length firstn background_price_poller].
      rewrite T. cbn [bind]. split; [lia | split; [exact R |]].
      destruct D as [-> | (i & e & N & Ti & Rr)]; [now left | right].
      exists i, e. cbn [nth_error]. repeat split; assumption.
    + exists 0, st. cbn [List.length firstn background_price_poller].
      split; [lia | split; [reflexivity | right]].
      exists inp, e. cbn [nth_error]. rewrite T. repeat split.
Qed.

Lemma poller_tick_keeps_bare (st st' : state) (inp : tick_input) :
  bare_direction (last_signal st) ->
  poller_tick rolling_mean_last isolation_forest float_of_str st inp = Ok st' ->
  bare_direction (last_signal st').
Proof.
  intros B T.
  destruct (poller_tick_returns st st' inp T)
    as [(_ & ->) | (price & info & last' & _ & E & ->)]; [exact B |].
  cbn [last_signal]. unfold bare_direction.
  destruct (evaluate_signals_moves _ _ _ _ E)
    as [(_ & ->) | (d & [-> | ->] & _ & -> & _)]; auto.
Qed.

(** C7.  [last_signal] starts as [None].  The loop lives through the turns
    before the first that raises, all of them when none does; at the end
    of those turns [last_signal] is [None], ["BUY"] or ["SELL"], and a
    turn that raises assigns nothing to it.  One evaluation that returns
    either emits no signal and leaves [last_signal] as it was, or emits a
    BUY or SELL signal, bare or marked risky, and sets [last_signal] to
    the bare direction; one that raises, raises out of the anomaly check,
    before the assignment. *)
Theorem last_signal_lifecycle :
  last_signal initial_state = None
  /\ (forall ticks : list tick_input,
        exists (n : nat) (st : state),
          n <= List.length ticks
          /\ background_price_poller rolling_mean_last isolation_forest
               float_of_str initial_state (firstn n ticks) = Ok st
          /\ bare_direction (last_signal st)
          /\ (n = List.length ticks
              \/ exists e : exn,
                   background_price_poller rolling_mean_last isolation_forest
                     float_of_str initial_state ticks = Raise e))
  /\ (forall (prices : list float) (last_signal : option string),
        match evaluate_signals rolling_mean_last isolation_forest prices
                last_signal with
        | Ok (info, last_signal') =>
            (emitted_signal info = None /\ last_signal' = last_signal)
            \/ ((emitted_signal info = Some "BUY"
                 \/ emitted_signal info = Some "BUY (RISKY - anomaly)")
                /\ last_signal' = Some "BUY")
            \/ ((emitted_signal info = Some "SELL"
                 \/ emitted_signal info = Some "SELL (RISKY - anomaly)")
                /\ last_signal' = Some "SELL")
        | Raise e => anomaly_flag isolation_forest prices = Raise e
        end).
Proof.
  split; [reflexivity | split].
  - intros ticks.
    destruct (poller_lives ticks initial_state) as (n & st & Ln & R & D).
    exists n, st. split; [exact Ln | split; [exact R | split]].
    + apply (poller_keeps (fun s => bare_direction (last_signal s))
               poller_tick_keeps_bare (firstn n ticks) initial_state st);
        [left; reflexivity | exact R].
    + destruct D as [-> | (_ & e & _ & _ & Rr)]; [now left | right].
      now exists e.
  - intros prices last.
    destruct (evaluate_signals rolling_mean_last isolation_forest prices last)
      as [[info last']|e] eqn:E.
    + destruct (evaluate_signals_moves _ _ _ _ E)
        as [(N & ->) | (d & [-> | ->] & _ & -> & S)]; auto.
    + destruct (evaluate_signals_cases rolling_mean_last isolation_forest
                  prices last)
        as [(_ & E1) | [(_ & b & _ & E1) | (_ & e' & F & E1)]];
        rewrite E1 in E; try discriminate E.
      injection E as <-. exact F.
Qed.

(** C8.  A turn whose fetch returns [None] leaves the state as it was:
    [prices], [timestamps], [last_signal] and the payloads emitted so far.
    So does any run of such turns, and the loop goes on with the turns
    that follow as if the run had not been. *)
Theorem failed_fetch_skips_tick (st : state) (failing rest : list tick_input) :
  Forall (fun inp => fetch_price float_of_str (reply inp) = None) failing ->
  (forall inp, In inp failing ->
     poller_tick rolling_mean_last isolation_forest float_of_str st inp = Ok st)
  /\ background_price_poller rolling_mean_last isolation_forest float_of_str
       st failing = Ok st
  /\ background_price_poller rolling_mean_last isolation_forest float_of_str
       st (failing ++ rest)
     = background_price_poller rolling_mean_last isolation_forest float_of_str
         st rest.
Proof.
  intros F. split; [| split].
  - intros inp I. apply poller_tick_no_price.
    rewrite Forall_forall in F. now apply F.
  - induction F as [|inp l Hinp _ IH]; [reflexivity |].
    cbn [background_price_poller].
    rewrite (poller_tick_no_price st inp Hinp). exact IH.
  - induction F as [|inp l Hinp _ IH]; [reflexivity |].
    cbn [background_price_poller app].
    rewrite (poller_tick_no_price st inp Hinp). exact IH.
Qed.

(** C9, as the program has it.  [fetch_price] raises nothing: it returns
    [None] or a float.  It returns a float exactly when the request came
    back with a status outside 400..599 and a JSON object whose ["price"]
    member [float] accepts; the float is that reading, whatever its sign
    and whether finite or not. *)
Theorem fetch_price_some_iff (o : http_outcome) (price : float) :
  fetch_price float_of_str o = Some price
  <-> exists (r : response) (members : list (string * json)) (raw : json),
        o = Responded r
        /\ ~ (400 <= status_code r < 600)%Z
        /\ body r = Some (JObj members)
        /\ dict_get "price" members = Some raw
        /\ py_float float_of_str raw = Ok price.
Proof.
  unfold fetch_price, requests_get, raise_for_status, response_json, getitem.
  split.
  - destruct o as [|r]; cbn [bind try_except]; [discriminate |].
    destruct ((400 <=? status_code r)%Z && (status_code r <? 600)%Z) eqn:S;
      cbn [bind try_except]; [discriminate |].
    destruct (body r) as [[| | | | | |members]|] eqn:Bd;
      cbn [bind try_except]; try discriminate.
    destruct (dict_get "price" members) as [raw|] eqn:D;
      cbn [bind try_except]; [| discriminate].
    destruct (py_float float_of_str raw) as [f|e] eqn:P;
      cbn [bind try_except]; [| discriminate].
    intros K. injection K as <-.
    exists r, members, raw. repeat split; auto.
    intros [K1 K2]. apply Z.leb_le in K1. apply Z.ltb_lt in K2.
    rewrite K1, K2 in S. discriminate.
  - intros (r & members & raw & -> & S & Bd & D & P).
    cbn [bind try_except].
    replace ((400 <=? status_code r)%Z && (status_code r <? 600)%Z) with false.
    + cbn [bind try_except]. rewrite Bd. cbn [bind try_except].
      rewrite D. cbn [bind try_except]. rewrite P. reflexivity.
    + symmetry. apply andb_false_iff.
      destruct (Z.leb_spec 400 (status_code r)); [| now left].
      destruct (Z.ltb_spec (status_code r) 600); [| now right].
      exfalso. apply S. lia.
Qed.
End Loop.

(** ** The statements on concrete data

    21 rising prices [1.0 .. 21.0] have the short average 19.0 above the
    long average 11.5.  50 rising prices followed by 1000.0 end in a
    return of 19.0, outside the range of the 49 returns before it.  50
    prices of 100.0 followed by 0.0 and 100.0 end in an infinite return. *)

Lemma averages_defined_from_21_witness :
  21 <= List.length (Reference.rising 21)
  /\ exists (s l : float) (info : Info.t) (last_signal' : option string),
       compute_moving_averages Reference.mean_last (Reference.rising 21) 5 20
         = (Some s, Some l)
       /\ evaluate_signals Reference.mean_last Reference.range_detector
            (Reference.rising 21) None = Ok (Some info, last_signal')
       /\ Info.ma_short info = Some s
       /\ Info.ma_long info = Some l.
Proof.
  assert (H : 21 <= List.length (Reference.rising 21)) by (vm_compute; lia).
  split; [exact H |].
  destruct (averages_defined_from_21 Reference.mean_last Reference.range_detector
              (Reference.rising 21) None H) as (s & l & C & M).
  destruct (evaluate_signals Reference.mean_last Reference.range_detector
              (Reference.rising 21) None) as [[r last']|e].
  - destruct M as (info & -> & A & B).
    exists s, l, info, last'. repeat split; assumption.
  - destruct M as [_ L]. vm_compute in L. lia.
Defined.

Lemma short_history_gives_none_witness :
  List.length (Reference.rising 20) < 21
  /\ evaluate_signals Reference.mean_last Reference.range_detector
       (Reference.rising 20) (Some "SELL") = Ok (None, Some "SELL")
  /\ Payload.signal (make_payload 20 0 None) = None
  /\ Payload.ma_short (make_payload 20 0 None) = None
  /\ Payload.ma_long (make_payload 20 0 None) = None.
Proof.
  assert (H : List.length (Reference.rising 20) < 21) by (vm_compute; lia).
  split; [exact H |].
  exact (short_history_gives_none Reference.mean_last Reference.range_detector
           (Reference.rising 20) (Some "SELL") 20 0 H).
Defined.

Lemma crossover_rule_witness :
  21 <= List.length (Reference.rising 21)
  /\ exists (info : Info.t) (last_signal' : option string),
       evaluate_signals Reference.mean_last Reference.range_detector
         (Reference.rising 21) None = Ok (Some info, last_signal')
       /\ (Info.signal info = Some "BUY"
           \/ Info.signal info = Some "BUY (RISKY - anomaly)")
       /\ Info.signal info <> None.
Proof.
  assert (H : 21 <= List.length (Reference.rising 21)) by (vm_compute; lia).
  split; [exact H |].
  destruct (crossover_rule Reference.mean_last Reference.range_detector
              (Reference.rising 21) None H) as (R & _ & Small).
  assert (F : anomaly_flag Reference.range_detector (Reference.rising 21)
              = Ok false) by (apply Small; vm_compute; lia).
  destruct (R false F) as (info & last' & E & B & _ & N).
  assert (C : (Reference.mean_last 20 (Reference.rising 21)
               <? Reference.mean_last 5 (Reference.rising 21))%float = true
              /\ @None string <> Some "BUY")
    by (split; [vm_compute; reflexivity | discriminate]).
  exists info, last'. split; [exact E | split; [apply B; exact C |]].
  intros K. apply N in K. destruct K as [K _]. exact (K C).
Defined.

Lemma anomaly_marks_signal_witness :
  21 <= List.length (Reference.rising 50 ++ [1000%float])
  /\ exists (info : Info.t) (last_signal' : option string),
       evaluate_signals Reference.mean_last Reference.range_detector
         (Reference.rising 50 ++ [1000%float]) None = Ok (Some info, last_signal')
       /\ Info.anomalous info = true
       /\ Info.signal info = Some "BUY (RISKY - anomaly)".
Proof.
  assert (H : 21 <= List.length (Reference.rising 50 ++ [1000%float]))
    by (vm_compute; lia).
  split; [exact H |].
  destruct (anomaly_marks_signal Reference.mean_last Reference.range_detector
              (Reference.rising 50 ++ [1000%float]) None H) as [_ M].
  cbv zeta in M.
  assert (L : 50 <= List.length
                  (np_divide (np_diff (Reference.rising 50 ++ [1000%float]))
                     (removelast (Reference.rising 50 ++ [1000%float]))))
    by (vm_compute; lia).
  specialize (M L).
  assert (A : is_anomalous Reference.range_detector
                (lastn 50
                   (np_divide (np_diff (Reference.rising 50 ++ [1000%float]))
                      (removelast (Reference.rising 50 ++ [1000%float]))))
              = Ok true) by (vm_compute; reflexivity).
  rewrite A in M. destruct M as (info & last' & E & Ha & B & _).
  exists info, last'. split; [exact E | split; [exact Ha |]].
  apply B. split; [vm_compute; reflexivity | discriminate].
Defined.

Lemma failed_fetch_skips_tick_witness :
  let st := {| prices := Reference.rising 3;
               timestamps := Reference.rising 3;
               last_signal := None;
               emitted := [] |} in
  let failing := [Reference.no_reply 4; Reference.no_reply 5; Reference.no_reply 6] in
  Forall (fun inp => fetch_price Reference.read_decimal (reply inp) = None) failing
  /\ background_price_poller Reference.mean_last Reference.range_detector
       Reference.read_decimal st failing = Ok st
  /\ List.length (prices st) = 3
  /\ emitted st = [].
Proof.
  cbv zeta.
  assert (F : Forall (fun inp => fetch_price Reference.read_decimal (reply inp) = None)
                [Reference.no_reply 4; Reference.no_reply 5; Reference.no_reply 6])
    by (repeat constructor).
  split; [exact F |].
  split; [| split; reflexivity].
  exact (proj1 (proj2 (failed_fetch_skips_tick Reference.mean_last
                         Reference.range_detector Reference.read_decimal
                         _ _ [] F))).
Defined.

(** The loop on thirty replies: nothing for the first twenty turns, one
    ["BUY"] on the twenty-first, one ["SELL"] once the short average has
    fallen below the long one, nothing in between and nothing after. *)
Example poller_buy_then_sell :
  exists st : state,
    background_price_poller Reference.mean_last Reference.range_detector
      Reference.read_decimal initial_state Reference.climb_then_fall = Ok st
    /\ map Payload.signal (emitted st)
       = repeat None 20 ++ [Some "BUY"] ++ repeat None 5
         ++ [Some "SELL"] ++ repeat None 3
    /\ last_signal st = Some "SELL"
    /\ List.length (prices st) = 30.
Proof.
  eexists. split; [vm_compute; reflexivity |].
  repeat split.
Qed.

(** The loop on fifty prices of 100.0, then 0.0, then 100.0: it lives
    through 51 turns and emits 51 payloads; the 52nd turn raises out of
    the anomaly check and ends the loop. *)
Example poller_dies_on_refused_returns :
  background_price_poller Reference.mean_last Reference.range_detector
    Reference.read_decimal initial_state Reference.flat_then_zero_ticks
  = Raise ValueError
  /\ exists st : state,
       background_price_poller Reference.mean_last Reference.range_detector
         Reference.read_decimal initial_state
         (firstn 51 Reference.flat_then_zero_ticks) = Ok st
       /\ List.length (emitted st) = 51.
Proof.
  split; [vm_compute; reflexivity |].
  eexists. split; [vm_compute; reflexivity | reflexivity].
Qed.

(** ** Where the program departs from a statement *)

(** Against C1: on fifty prices of 100.0 followed by 0.0 and 100.0 the
    short average 80.0 is below the long average 95.0 and [last_signal]
    is [None], not ["SELL"]; the evaluation emits no SELL: it raises out
    of the anomaly check, whose last return is infinite. *)
Lemma crossover_needs_the_check :
  21 <= List.length Reference.flat_then_zero
  /\ (Reference.mean_last 5 Reference.flat_then_zero
      <? Reference.mean_last 20 Reference.flat_then_zero)%float = true
  /\ @None string <> Some "SELL"
  /\ evaluate_signals Reference.mean_last Reference.range_detector
       Reference.flat_then_zero None = Raise ValueError.
Proof.
  split; [vm_compute; lia |].
  split; [vm_compute; reflexivity |].
  split; [discriminate | vm_compute; reflexivity].
Qed.

(** Against C3: on 21 rising prices with [last_signal = None] the first
    evaluation emits ["BUY"] and records it; the second, on the same
    prices, emits nothing.  The two results differ. *)
Lemma evaluate_twice_differs :
  exists (r1 r2 : option Info.t) (s1 s2 : option string),
    evaluate_signals Reference.mean_last Reference.range_detector
      (Reference.rising 21) None = Ok (r1, s1)
    /\ evaluate_signals Reference.mean_last Reference.range_detector
         (Reference.rising 21) s1 = Ok (r2, s2)
    /\ emitted_signal r1 = Some "BUY"
    /\ emitted_signal r2 = None
    /\ r1 <> r2.
Proof.
  do 4 eexists.
  split; [vm_compute; reflexivity |].
  split; [vm_compute; reflexivity |].
  split; [reflexivity | split; [reflexivity |]].
  intros K. discriminate K.
Qed.

(** Against C6: when the flag is set the emitted text is
    ["BUY (RISKY - anomaly)"]; it is not ["BUY"] followed by ["-RISKY"]. *)
Lemma risky_signal_text :
  exists (info : Info.t),
    evaluate_signals Reference.mean_last Reference.range_detector
      (Reference.rising 50 ++ [1000%float]) None = Ok (Some info, Some "BUY")
    /\ Info.anomalous info = true
    /\ Info.signal info = Some "BUY (RISKY - anomaly)"
    /\ Info.signal info <> Some ("BUY" ++ "-RISKY")%string.
Proof.
  eexists. split; [vm_compute; reflexivity |].
  split; [reflexivity | split; [reflexivity |]].
  intros K. discriminate K.
Qed.

(** Against C9: a body whose ["price"] is the number [-1] gives the float
    [-1.0], and the text ["0.00000000"] gives [0.0]; neither is positive. *)
Lemma fetch_price_not_positive :
  fetch_price Reference.read_decimal
    (Responded {| status_code := 200;
                  body := Some (JObj [("symbol", JStr "BTCUSDT");
                                      ("price", JInt (-1))]) |})
    = Some (-1)%float
  /\ positive_finite (-1) = false
  /\ fetch_price Reference.read_decimal (Reference.ticker_reply "0.00000000")
     = Some 0%float
  /\ positive_finite 0 = false.
Proof. repeat split; vm_compute; reflexivity. Qed.

(** * Further properties *)

(** ** The bounded history from any start *)

(** X1.  A deque within its capacity [N], after any appends, holds the last
    [N] of its old content followed by what was appended; its length is
    the smaller of [N] and the total, and nothing is dropped while the
    total stays within [N]. *)
Theorem deque_holds_last_N {A : Type} (N : nat) (d xs : list A) :
  List.length d <= N ->
  Deque.append_all N d xs = lastn N (d ++ xs)
  /\ List.length (Deque.append_all N d xs)
     = Nat.min N (List.length d + List.length xs)
  /\ (List.length d + List.length xs <= N -> Deque.append_all N d xs = d ++ xs).
Proof.
  intros H.
  assert (E : Deque.append_all N d xs = lastn N (d ++ xs))
    by now apply append_all_lastn.
  split; [exact E | split].
  - rewrite E, lastn_length, length_app. reflexivity.
  - intros T. rewrite E. apply lastn_all. rewrite length_app. exact T.
Qed.

Lemma deque_holds_last_N_witness :
  List.length [1; 2] <= 3
  /\ Deque.append_all 3 [1; 2] [3; 4; 5] = [3; 4; 5]
  /\ Deque.append_all 3 [1; 2] [3] = [1; 2; 3].
Proof.
  assert (H : List.length [1; 2] <= 3) by (simpl; lia).
  split; [exact H |].
  split.
  - rewrite (proj1 (deque_holds_last_N 3 [1; 2] [3; 4; 5] H)). reflexivity.
  - apply (proj2 (proj2 (deque_holds_last_N 3 [1; 2] [3] H))). simpl. lia.
Defined.

(** ** NaN averages and the risky mark *)

Section Edges.
Variable rolling_mean_last : nat -> list float -> float.
Variable isolation_forest : list float -> float -> outcome Z.

Lemma crossover_nan (s l : float) (last_signal : option string) :
  is_nan s = true \/ is_nan l = true -> crossover s l last_signal = None.
Proof.
  intros N. unfold crossover.
  destruct N as [N | N];
    [destruct (ltb_nan s l N) as [A B] | destruct (ltb_nan l s N) as [B A]];
    rewrite A, B; reflexivity.
Qed.

(** X9.  With 21 prices or more, when the short or the long average is
    NaN, an evaluation that returns emits no signal and leaves
    [last_signal] as it was; with 50 prices or fewer it returns. *)
Theorem nan_average_gives_no_signal
  (prices : list float) (last_signal : option string) :
  21 <= List.length prices ->
  is_nan (rolling_mean_last 5 prices) = true
  \/ is_nan (rolling_mean_last 20 prices) = true ->
  (forall (r : option Info.t) (last_signal' : option string),
     evaluate_signals rolling_mean_last isolation_forest prices last_signal
       = Ok (r, last_signal') ->
     emitted_signal r = None /\ last_signal' = last_signal)
  /\ (List.length prices <= 50 ->
      exists info : Info.t,
        evaluate_signals rolling_mean_last isolation_forest prices last_signal
          = Ok (Some info, last_signal)
        /\ Info.signal info = None).
Proof.
  intros H N.
  pose proof (crossover_nan _ _ last_signal N) as C.
  rewrite (evaluate_signals_long _ _ prices last_signal H).
  split.
  - intros r last' E.
    destruct (anomaly_flag isolation_forest prices) as [b|e];
      cbn [bind] in E; [| discriminate E].
    unfold decide in E. rewrite C in E. injection E as <- <-.
    split; reflexivity.
  - intros L. rewrite (anomaly_flag_needs_51 isolation_forest prices L).
    cbn [bind]. unfold decide. rewrite C.
    eexists. split; reflexivity.
Qed.

(** X8.  In every dict an evaluation returns, a signal carries the text
    [" (RISKY - anomaly)"] exactly when the anomaly flag of the same dict
    is set: a bare ["BUY"] or ["SELL"] comes with the flag unset, a marked
    one with the flag set, and nothing else is ever emitted.  An
    evaluation that returns no dict has raised out of the anomaly check,
    or has returned [None]. *)
Theorem risky_mark_follows_flag
  (prices : list float) (last_signal : option string) :
  match evaluate_signals rolling_mean_last isolation_forest prices
          last_signal with
  | Ok (Some i, _) =>
      Info.signal i = None
      \/ (Info.anomalous i = false
          /\ (Info.signal i = Some "BUY" \/ Info.signal i = Some "SELL"))
      \/ (Info.anomalous i = true
          /\ (Info.signal i = Some "BUY (RISKY - anomaly)"
              \/ Info.signal i = Some "SELL (RISKY - anomaly)"))
  | Ok (None, _) => List.length prices < 21
  | Raise e => anomaly_flag isolation_forest prices = Raise e
  end.
Proof.
  destruct (evaluate_signals_cases rolling_mean_last isolation_forest
              prices last_signal)
    as [(Hs & E) | [(_ & b & _ & E) | (_ & e & F & E)]]; rewrite E.
  - exact Hs.
  - unfold decide. cbn [Info.signal Info.anomalous].
    destruct (crossover_cases (rolling_mean_last 5 prices)
                (rolling_mean_last 20 prices) last_signal)
      as [(C & _) | [(C & _) | (C & _)]]; rewrite C;
      try (left; reflexivity);
      destruct b; auto.
  - exact F.
Qed.
End Edges.

Lemma nan_average_gives_no_signal_witness :
  21 <= List.length (Reference.rising 20 ++ [nan])
  /\ is_nan (Reference.mean_last 5 (Reference.rising 20 ++ [nan])) = true
  /\ exists info : Info.t,
       evaluate_signals Reference.mean_last Reference.range_detector
         (Reference.rising 20 ++ [nan]) (Some "BUY") = Ok (Some info, Some "BUY")
       /\ Info.signal info = None.
Proof.
  assert (H : 21 <= List.length (Reference.rising 20 ++ [nan]))
    by (vm_compute; lia).
  assert (N : is_nan (Reference.mean_last 5 (Reference.rising 20 ++ [nan])) = true)
    by (vm_compute; reflexivity).
  split; [exact H | split; [exact N |]].
  apply (proj2 (nan_average_gives_no_signal Reference.mean_last
                  Reference.range_detector (Reference.rising 20 ++ [nan])
                  (Some "BUY") H (or_introl N))).
  vm_compute. lia.
Defined.

(** ** The key file *)

(** X10.  After [load_key(path)] the file at [path] holds the key that was
    returned, and loading again returns the same key and changes nothing,
    whatever fresh bytes the generator would hand out; after
    [generate_key(path)], [load_key(path)] returns the generated key. *)
Theorem load_key_stable (fresh1 fresh2 path : string) (fs : files) :
  snd (load_key fresh1 path fs) path = Some (fst (load_key fresh1 path fs))
  /\ load_key fresh2 path (snd (load_key fresh1 path fs))
     = load_key fresh1 path fs
  /\ load_key fresh2 path (snd (generate_key fresh1 path fs))
     = generate_key fresh1 path fs.
Proof.
  assert (W : write_file fs path fresh1 path = Some fresh1)
    by (unfold write_file; now rewrite String.eqb_refl).
  unfold load_key at 1 2 4 5. unfold generate_key.
  destruct (fs path) as [data|] eqn:E; cbn [fst snd].
  - repeat split; [exact E | |]; unfold load_key.
    + now rewrite E.
    + now rewrite W.
  - repeat split; [exact W | |]; unfold load_key; now rewrite W.
Qed.

(** ** A run of the loop from the start *)

Section Run.
Variable rolling_mean_last : nat -> list float -> float.
Variable isolation_forest : list float -> float -> outcome Z.
Variable float_of_str : string -> option float.

Abbreviation run :=
  (background_price_poller rolling_mean_last isolation_forest float_of_str).

Abbreviation stamps :=
  (map (fun p : Payload.t => (Payload.price p, Payload.timestamp p))).

(** X4.  The turns whose fetch gave no price play no part, wherever they
    fall in a run: the loop ends as it does on the other turns alone. *)
Theorem failed_turns_leave_no_trace (st : state) (ticks : list tick_input) :
  run st ticks = run st (filter (has_price float_of_str) ticks).
Proof.
  revert st. induction ticks as [|inp rest IH]; intros st; [reflexivity |].
  cbn [filter]. unfold has_price at 1.
  destruct (fetch_price float_of_str (reply inp)) as [price|] eqn:F.
  - cbn [background_price_poller].
    destruct (poller_tick rolling_mean_last isolation_forest float_of_str st inp);
      cbn [bind]; [apply IH | reflexivity].
  - cbn [background_price_poller].
    rewrite (poller_tick_no_price rolling_mean_last isolation_forest
               float_of_str st inp F).
    cbn [bind]. apply IH.
Qed.

(** A run that ends well keeps the last [PRICE_WINDOW] prices that came
    back, with their clock readings, and has emitted one payload for each
    price, carrying the price and the clock reading. *)
Lemma poller_history (ticks : list tick_input) :
  forall st st' : state,
    List.length (prices st) <= PRICE_WINDOW ->
    List.length (timestamps st) <= PRICE_WINDOW ->
    run st ticks = Ok st' ->
    prices st'
    = lastn PRICE_WINDOW (prices st ++ map fst (fetched float_of_str ticks))
    /\ timestamps st'
       = lastn PRICE_WINDOW (timestamps st ++ map snd (fetched float_of_str ticks))
    /\ stamps (emitted st') = stamps (emitted st) ++ fetched float_of_str ticks.
Proof.
  induction ticks as [|inp rest IH]; intros st st' Hp Ht R.
  - injection R as <-. unfold fetched. cbn [flat_map map].
    rewrite !app_nil_r. repeat split; symmetry; now apply lastn_all.
  - destruct (poller_cons_returns _ _ _ st st' inp rest R) as (st1 & T & R1).
    unfold fetched. cbn [flat_map]. fold (fetched float_of_str rest).
    destruct (poller_tick_returns _ _ _ st st1 inp T)
      as [(F & ->) | (price & info & last' & F & _ & ->)]; rewrite F.
    + cbn [app]. now apply IH.
    + match type of R1 with
      | background_price_poller _ _ _ ?st1 rest = _ =>
          destruct (IH st1 st') as (P1 & P2 & P3);
          [cbn [prices]; now apply append_length
          | cbn [timestamps]; now apply append_length
          | exact R1 |]
      end.
      cbn [prices timestamps emitted] in P1, P2, P3.
      rewrite append_lastn, lastn_app_lastn, <- app_assoc in P1 by exact Hp.
      rewrite append_lastn, lastn_app_lastn, <- app_assoc in P2 by exact Ht.
      rewrite map_app, <- app_assoc in P3.
      repeat split; assumption.
Qed.

(** X2.  After any run from the start that ends well, [prices] and
    [timestamps] have one length, at most [PRICE_WINDOW], and pair up
    entry by entry as the last [PRICE_WINDOW] prices that came back, each
    with the clock reading of its turn. *)
Theorem history_stays_aligned (ticks : list tick_input) (st : state) :
  run initial_state ticks = Ok st ->
  combine (prices st) (timestamps st)
  = lastn PRICE_WINDOW (fetched float_of_str ticks)
  /\ List.length (prices st) = List.length (timestamps st)
  /\ List.length (prices st) <= PRICE_WINDOW.
Proof.
  intros R.
  destruct (poller_history ticks initial_state st) as (P1 & P2 & _);
    try exact R; try (cbn; unfold PRICE_WINDOW; lia).
  cbn [initial_state prices timestamps app] in P1, P2.
  rewrite P1, P2, !lastn_map.
  split; [apply combine_fst_snd |].
  rewrite !length_map, lastn_length. split; [reflexivity | lia].
Qed.

(** X3.  A run from the start that ends well has emitted one payload for
    each price that came back, in order, carrying that price and the
    clock reading of its turn; a turn without a price emits nothing. *)
Theorem one_payload_per_price (ticks : list tick_input) (st : state) :
  run initial_state ticks = Ok st ->
  stamps (emitted st) = fetched float_of_str ticks.
Proof.
  intros R.
  destruct (poller_history ticks initial_state st) as (_ & _ & P3);
    try exact R; try (cbn; unfold PRICE_WINDOW; lia).
  exact P3.
Qed.

(** What the payload of a turn looks like, by the length the history has
    once the price of the turn is in it. *)
Lemma payload_by_length
  (h : list float) (last_signal last_signal' : option string)
  (info : option Info.t) (price ts : float) (k : nat) :
  evaluate_signals rolling_mean_last isolation_forest h last_signal
    = Ok (info, last_signal') ->
  List.length h = Nat.min PRICE_WINDOW (k + 1) ->
  payload_shape k (make_payload price ts info).
Proof.
  intros E L. unfold PRICE_WINDOW in L. unfold payload_shape.
  destruct (evaluate_signals_cases rolling_mean_last isolation_forest
              h last_signal)
    as [(Hs & E1) | [(Hl & b & F & E1) | (_ & e & _ & E1)]];
    rewrite E1 in E; [| | discriminate E].
  - injection E as <- <-. cbn.
    split; [intros _; repeat split |].
    split; [intros K; lia |].
    intros _. split; [discriminate | now left].
  - unfold decide in E. injection E as <- <-. cbn.
    split; [intros K; lia |].
    split; [intros _; do 3 eexists; repeat split |].
    intros K.
    assert (B : b = false).
    { rewrite (anomaly_flag_needs_51 isolation_forest h) in F by lia.
      now injection F as <-. }
    subst b. split; [discriminate |].
    destruct (crossover_cases (rolling_mean_last 5 h)
                (rolling_mean_last 20 h) last_signal)
      as [(C & _) | [(C & _) | (C & _)]]; rewrite C; auto.
Qed.

Lemma poller_tick_keeps_shapes (st st' : state) (inp : tick_input) :
  (List.length (prices st) = Nat.min PRICE_WINDOW (List.length (emitted st))
   /\ forall k p, nth_error (emitted st) k = Some p -> payload_shape k p) ->
  poller_tick rolling_mean_last isolation_forest float_of_str st inp = Ok st' ->
  List.length (prices st') = Nat.min PRICE_WINDOW (List.length (emitted st'))
  /\ forall k p, nth_error (emitted st') k = Some p -> payload_shape k p.
Proof.
  intros [L S] T.
  destruct (poller_tick_returns _ _ _ st st' inp T)
    as [(_ & ->) | (price & info & last' & _ & E & ->)];
    [split; assumption |].
  cbn [prices emitted].
  assert (L1 : List.length (Deque.append PRICE_WINDOW (prices st) price)
               = Nat.min PRICE_WINDOW (List.length (emitted st) + 1)).
  { rewrite append_length_exact by (rewrite L; lia).
    rewrite L. unfold PRICE_WINDOW. lia. }
  split; [rewrite L1, length_app; reflexivity |].
  intros k q N.
  destruct (Nat.lt_ge_cases k (List.length (emitted st))) as [Kl | Kg].
  - rewrite nth_error_app1 in N by exact Kl. now apply S.
  - rewrite nth_error_app2 in N by exact Kg.
    destruct (k - List.length (emitted st)) as [|j] eqn:J;
      [| destruct j; discriminate N].
    injection N as <-.
    assert (K : k = List.length (emitted st)) by lia. subst k.
    exact (payload_by_length _ _ _ _ _ _ _ E L1).
Qed.

Lemma run_shapes (ticks : list tick_input) (st : state) :
  run initial_state ticks = Ok st ->
  forall k p, nth_error (emitted st) k = Some p -> payload_shape k p.
Proof.
  intros R.
  apply (poller_keeps rolling_mean_last isolation_forest float_of_str
           (fun s =>
              List.length (prices s)
              = Nat.min PRICE_WINDOW (List.length (emitted s))
              /\ forall k p, nth_error (emitted s) k = Some p -> payload_shape k p)
           poller_tick_keeps_shapes ticks initial_state st);
    [| exact R].
  split; [reflexivity |]. intros [|k] p N; discriminate N.
Qed.

(** X5.  In a run from the start that ends well the first 20 payloads
    carry the price and the clock only: [signal], [ma_short], [ma_long]
    and [anomalous] are all [None].  Every payload from the 21st on
    carries both averages and an anomaly flag. *)
Theorem warm_up_payloads (ticks : list tick_input) (st : state) :
  run initial_state ticks = Ok st ->
  forall (k : nat) (p : Payload.t),
    nth_error (emitted st) k = Some p ->
    (k < 20 ->
     Payload.signal p = None /\ Payload.ma_short p = None
     /\ Payload.ma_long p = None /\ Payload.anomalous p = None)
    /\ (20 <= k ->
        exists (s l : float) (b : bool),
          Payload.ma_short p = Some s /\ Payload.ma_long p = Some l
          /\ Payload.anomalous p = Some b).
Proof.
  intros R k p N.
  destruct (run_shapes ticks st R k p N) as (A & B & _). split; assumption.
Qed.

(** X6.  In a run from the start that ends well none of the first 50
    payloads has the anomaly flag set, and their signals are [None],
    ["BUY"] or ["SELL"]: a signal can be marked risky from the 51st price
    on only. *)
Theorem no_risky_mark_before_51 (ticks : list tick_input) (st : state) :
  run initial_state ticks = Ok st ->
  forall (k : nat) (p : Payload.t),
    nth_error (emitted st) k = Some p ->
    k < 50 ->
    Payload.anomalous p <> Some true
    /\ (Payload.signal p = None \/ Payload.signal p = Some "BUY"
        \/ Payload.signal p = Some "SELL").
Proof.
  intros R k p N.
  destruct (run_shapes ticks st R k p N) as (_ & _ & C). exact C.
Qed.

Lemma make_payload_signal (price ts : float) (info : option Info.t) :
  Payload.signal (make_payload price ts info) = emitted_signal info.
Proof. destruct info; reflexivity. Qed.

Lemma directions_snoc (log : list Payload.t) (p : Payload.t) :
  directions (log ++ [p]) = directions log ++ direction_of p.
Proof.
  unfold directions. rewrite flat_map_app. cbn [flat_map].
  now rewrite app_nil_r.
Qed.

Lemma poller_tick_in_order (st st' : state) (inp : tick_input) :
  signals_in_order st ->
  poller_tick rolling_mean_last isolation_forest float_of_str st inp = Ok st' ->
  signals_in_order st'.
Proof.
  intros (L & A & F) T.
  destruct (poller_tick_returns _ _ _ st st' inp T)
    as [(_ & ->) | (price & info & last' & _ & E & ->)];
    [repeat split; assumption |].
  unfold signals_in_order. cbn [last_signal emitted].
  rewrite directions_snoc. unfold direction_of. rewrite make_payload_signal.
  destruct (evaluate_signals_moves _ _ _ _ _ _ E)
    as [(N & ->) | (d & Hd & D & -> & S)].
  - rewrite N, app_nil_r. repeat split; assumption.
  - assert (W : match emitted_signal info with
                | Some text => firstn 1 (split text)
                | None => []
                end = [d]).
    { destruct Hd as [-> | ->]; destruct S as [-> | ->]; reflexivity. }
    rewrite W. split; [| split].
    + symmetry. apply last_opt_snoc.
    + apply alternates_snoc; [exact A |]. now rewrite <- L.
    + apply Forall_app. split; [exact F |]. constructor; [exact Hd | constructor].
Qed.

(** X7.  In a run from the start that ends well the directions of the
    emitted signals, risky marks aside, are ["BUY"] and ["SELL"] and
    never the same twice in a row, and [last_signal] is the latest of
    them ([None] when no signal has been emitted). *)
Theorem directions_never_repeat (ticks : list tick_input) (st : state) :
  run initial_state ticks = Ok st ->
  alternates (directions (emitted st))
  /\ Forall (fun d => d = "BUY" \/ d = "SELL") (directions (emitted st))
  /\ last_signal st = last_opt (directions (emitted st)).
Proof.
  intros R.
  destruct (poller_keeps rolling_mean_last isolation_forest float_of_str
              signals_in_order poller_tick_in_order ticks initial_state st)
    as (L & A & F); [| exact R |].
  { repeat split; constructor. }
  repeat split; assumption.
Qed.
End Run.

(** ** What each payload reports *)

Section Content.
Variable rolling_mean_last : nat -> list float -> float.
Variable isolation_forest : list float -> float -> outcome Z.
Variable float_of_str : string -> option float.

Lemma run_reports (ticks : list tick_input) :
  forall (st st' : state) (F : list (float * float)),
    prices st = lastn PRICE_WINDOW (map fst F) ->
    List.length (emitted st) = List.length F ->
    (forall k p, nth_error (emitted st) k = Some p ->
       payload_reports rolling_mean_last isolation_forest (firstn (k + 1) F) p) ->
    background_price_poller rolling_mean_last isolation_forest float_of_str
      st ticks = Ok st' ->
    forall k p, nth_error (emitted st') k = Some p ->
      payload_reports rolling_mean_last isolation_forest
        (firstn (k + 1) (F ++ fetched float_of_str ticks)) p.
Proof.
  induction ticks as [|inp rest IH]; intros st st' F P L S R.
  - injection R as <-. unfold fetched. cbn [flat_map].
    rewrite app_nil_r. exact S.
  - destruct (poller_cons_returns _ _ _ st st' inp rest R) as (st1 & T & R1).
    unfold fetched. cbn [flat_map]. fold (fetched float_of_str rest).
    destruct (poller_tick_returns _ _ _ st st1 inp T)
      as [(Fp & ->) | (price & info & last' & Fp & E & ->)]; rewrite Fp.
    + cbn [app]. now apply (IH st st' F).
    + cbn [app].
      replace (F ++ (price, clock inp) :: fetched float_of_str rest)
        with ((F ++ [(price, clock inp)]) ++ fetched float_of_str rest)
        by (rewrite <- app_assoc; reflexivity).
      assert (P1 : Deque.append PRICE_WINDOW (prices st) price
                   = lastn PRICE_WINDOW (map fst (F ++ [(price, clock inp)]))).
      { rewrite append_lastn
          by (rewrite P, lastn_length; apply Nat.le_min_l).
        rewrite P, lastn_app_lastn, map_app. reflexivity. }
      match type of R1 with
      | background_price_poller _ _ _ ?s1 rest = _ =>
          apply (IH s1 st' (F ++ [(price, clock inp)]))
      end; [exact P1 | | | exact R1].
      * cbn [emitted]. rewrite !length_app, L. reflexivity.
      * intros k q N. cbn [emitted] in N.
        destruct (Nat.lt_ge_cases k (List.length (emitted st))) as [Kl | Kg].
        -- rewrite nth_error_app1 in N by exact Kl.
           rewrite firstn_app.
           replace (k + 1 - List.length F) with 0 by lia.
           cbn [firstn]. rewrite app_nil_r. now apply S.
        -- rewrite nth_error_app2 in N by exact Kg.
           destruct (k - List.length (emitted st)) as [|j] eqn:J;
             [| destruct j; discriminate N].
           injection N as <-.
           rewrite firstn_all2 by (rewrite length_app; cbn [List.length]; lia).
           unfold payload_reports. cbv zeta. rewrite <- P1. intros H21.
           destruct (evaluate_signals_cases rolling_mean_last isolation_forest
                       (Deque.append PRICE_WINDOW (prices st) price)
                       (last_signal st))
             as [(Hs & _) | [(_ & b & Fl & E1) | (_ & e & _ & E1)]];
             [lia | | rewrite E1 in E; discriminate E].
           rewrite E1 in E. unfold decide in E. injection E as <- _.
           cbn. split; [reflexivity | split; [reflexivity |]].
           exists b. split; [exact Fl | reflexivity].
Qed.

(** X12.  In a run from the start that ends well, the payload with index
    [k >= 20] reports the averages and the anomaly flag of the history as
    it stands with the price of its own turn already in it: the last
    [PRICE_WINDOW] of the first [k + 1] prices that came back. *)
Theorem payload_reports_current_history (ticks : list tick_input) (st : state) :
  background_price_poller rolling_mean_last isolation_forest float_of_str
    initial_state ticks = Ok st ->
  forall (k : nat) (p : Payload.t),
    nth_error (emitted st) k = Some p ->
    20 <= k ->
    let history :=
      lastn PRICE_WINDOW
        (map fst (firstn (k + 1) (fetched float_of_str ticks))) in
    Payload.ma_short p = Some (rolling_mean_last 5 history)
    /\ Payload.ma_long p = Some (rolling_mean_last 20 history)
    /\ exists b : bool,
         anomaly_flag isolation_forest history = Ok b
         /\ Payload.anomalous p = Some b.
Proof.
  intros R k p N K.
  assert (S0 : forall j q,
             nth_error (emitted initial_state) j = Some q ->
             payload_reports rolling_mean_last isolation_forest
               (firstn (j + 1) []) q)
    by (intros [|j] q M; discriminate M).
  apply (run_reports ticks initial_state st [] eq_refl eq_refl S0 R k p N).
  destruct (poller_history rolling_mean_last isolation_forest float_of_str
              ticks initial_state st) as (_ & _ & E);
    try exact R; try (cbn; unfold PRICE_WINDOW; lia).
  cbn [initial_state emitted map app] in E.
  assert (Lk : k < List.length (fetched float_of_str ticks)).
  { rewrite <- E, length_map. apply nth_error_Some. congruence. }
  cbn [app]. rewrite lastn_length, length_map, length_firstn.
  unfold PRICE_WINDOW. lia.
Qed.

(** With 50 prices or fewer in the history and to come, the loop lives. *)
Lemma poller_lives_short (ticks : list tick_input) :
  forall st : state,
    List.length (prices st) + List.length (fetched float_of_str ticks) <= 50 ->
    exists st' : state,
      background_price_poller rolling_mean_last isolation_forest float_of_str
        st ticks = Ok st'.
Proof.
  induction ticks as [|inp rest IH]; intros st L; [now exists st |].
  unfold fetched in L. cbn [flat_map] in L. fold (fetched float_of_str rest) in L.
  cbn [background_price_poller]. unfold poller_tick.
  destruct (fetch_price float_of_str (reply inp)) as [price|].
  - cbv zeta. rewrite length_app in L. cbn [List.length] in L.
    assert (La : List.length (Deque.append PRICE_WINDOW (prices st) price)
                 = List.length (prices st) + 1).
    { rewrite append_length_exact by (unfold PRICE_WINDOW; lia).
      unfold PRICE_WINDOW. lia. }
    destruct (evaluate_signals_cases rolling_mean_last isolation_forest
                (Deque.append PRICE_WINDOW (prices st) price) (last_signal st))
      as [(_ & E) | [(_ & b & _ & E) | (L51 & _)]]; [| | lia];
      rewrite E; cbn [bind].
    + apply IH. cbn [prices]. lia.
    + destruct (decide _ _ _ b) as [info last']. apply IH. cbn [prices]. lia.
  - cbn [bind]. apply IH. cbn [app] in L. exact L.
Qed.

(** X13.  The loop dies of the anomaly check and of nothing else.  A run
    from the start in which 50 prices or fewer come back ends well.  A
    run that raises has lived through the turns before one whose fetch
    gave a price, and raises what the anomaly check raised on the
    history with that price in it. *)
Theorem poller_dies_of_the_check_only (ticks : list tick_input) :
  (List.length (fetched float_of_str ticks) <= 50 ->
   exists st : state,
     background_price_poller rolling_mean_last isolation_forest float_of_str
       initial_state ticks = Ok st)
  /\ (forall e : exn,
        background_price_poller rolling_mean_last isolation_forest float_of_str
          initial_state ticks = Raise e ->
        exists (n : nat) (st : state) (inp : tick_input) (price : float),
          background_price_poller rolling_mean_last isolation_forest
            float_of_str initial_state (firstn n ticks) = Ok st
          /\ nth_error ticks n = Some inp
          /\ fetch_price float_of_str (reply inp) = Some price
          /\ anomaly_flag isolation_forest
               (Deque.append PRICE_WINDOW (prices st) price) = Raise e).
Proof.
  split.
  - intros L. apply poller_lives_short. exact L.
  - intros e R.
    destruct (poller_lives rolling_mean_last isolation_forest float_of_str
                ticks initial_state) as (n & st & _ & Rn & D).
    destruct D as [-> | (inp & e' & N & T & R')].
    + rewrite firstn_all in Rn. rewrite Rn in R. discriminate R.
    + rewrite R' in R. injection R as ->.
      destruct (poller_tick_raises _ _ _ st inp e T) as (price & Fp & E).
      exists n, st, inp, price. repeat split; try assumption.
      destruct (evaluate_signals_cases rolling_mean_last isolation_forest
                  (Deque.append PRICE_WINDOW (prices st) price) (last_signal st))
        as [(_ & E1) | [(_ & b & _ & E1) | (_ & e2 & F & E1)]];
        rewrite E1 in E; try discriminate E.
      injection E as <-. exact F.
Qed.
End Content.

(** ** The run-level statements on sixty rising prices *)

Lemma steady_climb_runs :
  background_price_poller Reference.mean_last Reference.range_detector
    Reference.read_decimal initial_state Reference.steady_climb
  = Ok Reference.after_steady_climb.
Proof. vm_compute. reflexivity. Qed.

Lemma history_stays_aligned_witness :
  background_price_poller Reference.mean_last Reference.range_detector
    Reference.read_decimal initial_state Reference.steady_climb
  = Ok Reference.after_steady_climb
  /\ combine (prices Reference.after_steady_climb)
       (timestamps Reference.after_steady_climb)
     = lastn PRICE_WINDOW
         (fetched Reference.read_decimal Reference.steady_climb)
  /\ List.length (prices Reference.after_steady_climb) = 60.
Proof.
  split; [exact steady_climb_runs |].
  split; [| reflexivity].
  exact (proj1 (history_stays_aligned Reference.mean_last
                  Reference.range_detector Reference.read_decimal
                  Reference.steady_climb Reference.after_steady_climb
                  steady_climb_runs)).
Defined.

Lemma one_payload_per_price_witness :
  background_price_poller Reference.mean_last Reference.range_detector
    Reference.read_decimal initial_state Reference.steady_climb
  = Ok Reference.after_steady_climb
  /\ map (fun p => (Payload.price p, Payload.timestamp p))
       (emitted Reference.after_steady_climb)
     = fetched Reference.read_decimal Reference.steady_climb
  /\ List.length (emitted Reference.after_steady_climb) = 60.
Proof.
  split; [exact steady_climb_runs |].
  split; [| reflexivity].
  exact (one_payload_per_price Reference.mean_last Reference.range_detector
           Reference.read_decimal Reference.steady_climb
           Reference.after_steady_climb steady_climb_runs).
Defined.

Lemma warm_up_payloads_witness :
  exists p q : Payload.t,
    nth_error (emitted Reference.after_steady_climb) 19 = Some p
    /\ nth_error (emitted Reference.after_steady_climb) 20 = Some q
    /\ Payload.ma_short p = None
    /\ exists (s l : float) (b : bool),
         Payload.ma_short q = Some s /\ Payload.ma_long q = Some l
         /\ Payload.anomalous q = Some b.
Proof.
  destruct (nth_error (emitted Reference.after_steady_climb) 19) as [p|] eqn:Np;
    [| vm_compute in Np; discriminate Np].
  destruct (nth_error (emitted Reference.after_steady_climb) 20) as [q|] eqn:Nq;
    [| vm_compute in Nq; discriminate Nq].
  exists p, q. split; [reflexivity | split; [reflexivity |]].
  pose proof (warm_up_payloads Reference.mean_last Reference.range_detector
                Reference.read_decimal Reference.steady_climb
                Reference.after_steady_climb steady_climb_runs) as W.
  split.
  - assert (K : 19 < 20) by lia.
    destruct (proj1 (W 19 p Np) K) as (_ & A & _). exact A.
  - apply (proj2 (W 20 q Nq)). lia.
Defined.

Lemma no_risky_mark_before_51_witness :
  exists p : Payload.t,
    nth_error (emitted Reference.after_steady_climb) 49 = Some p
    /\ Payload.anomalous p <> Some true
    /\ (Payload.signal p = None \/ Payload.signal p = Some "BUY"
        \/ Payload.signal p = Some "SELL").
Proof.
  destruct (nth_error (emitted Reference.after_steady_climb) 49) as [p|] eqn:Np;
    [| vm_compute in Np; discriminate Np].
  exists p. split; [reflexivity |].
  apply (no_risky_mark_before_51 Reference.mean_last Reference.range_detector
           Reference.read_decimal Reference.steady_climb
           Reference.after_steady_climb steady_climb_runs 49 p Np).
  lia.
Defined.

Lemma directions_never_repeat_witness :
  background_price_poller Reference.mean_last Reference.range_detector
    Reference.read_decimal initial_state Reference.steady_climb
  = Ok Reference.after_steady_climb
  /\ directions (emitted Reference.after_steady_climb) = ["BUY"]
  /\ alternates (directions (emitted Reference.after_steady_climb))
  /\ last_signal Reference.after_steady_climb
     = last_opt (directions (emitted Reference.after_steady_climb)).
Proof.
  split; [exact steady_climb_runs |].
  split; [vm_compute; reflexivity |].
  destruct (directions_never_repeat Reference.mean_last Reference.range_detector
              Reference.read_decimal Reference.steady_climb
              Reference.after_steady_climb steady_climb_runs) as (A & _ & L).
  split; assumption.
Defined.

Lemma payload_reports_current_history_witness :
  exists p : Payload.t,
    nth_error (emitted Reference.after_steady_climb) 55 = Some p
    /\ Payload.ma_short p
       = Some (Reference.mean_last 5
                 (lastn PRICE_WINDOW
                    (map fst (firstn 56 (fetched Reference.read_decimal
                                           Reference.steady_climb)))))
    /\ Payload.anomalous p = Some true.
Proof.
  destruct (nth_error (emitted Reference.after_steady_climb) 55) as [p|] eqn:Np;
    [| vm_compute in Np; discriminate Np].
  exists p. split; [reflexivity |].
  destruct (payload_reports_current_history Reference.mean_last
              Reference.range_detector Reference.read_decimal
              Reference.steady_climb Reference.after_steady_climb
              steady_climb_runs 55 p Np) as (A & _ & b & F & B); [lia |].
  cbv zeta in A. change (55 + 1) with 56 in A.
  split; [exact A |].
  vm_compute in F. injection F as <-. exact B.
Defined.
